(** * Prayer-times bot: the time arithmetic, the timings provider and the
      conversation handlers of [bot.py], embedded and verified.

    The embedding follows the source function by function.  Python values
    that come out of a JSON body are kept dynamically typed ([pyval]), the
    exceptions that the source can meet are explicit ([exn], [result]), and
    the two process-wide dicts are an explicit [store] threaded through the
    handlers together with the list of messages sent so far. *)

From Stdlib Require Import ZArith String Ascii DecimalString Lia.
From stdpp Require Import gmap strings.

Local Open Scope string_scope.
Local Open Scope Z_scope.
Set Warnings "-register-all".

(** ** Python values, exceptions and results *)

(** The values [response.json()] can produce.  JSON numbers are kept as
    integers: a float behaves like [PyInt] for every operation the source
    applies (truth test, attribute and item access, type test). *)
Inductive pyval : Type :=
| PyNone
| PyBool (b : bool)
| PyInt (n : Z)
| PyStr (s : string)
| PyList (l : list pyval)
| PyDict (d : gmap string pyval).

(** The exception classes that matter to the [except] clauses of the source. *)
Inductive exn : Type :=
| KeyError
| ValueError
| TypeError
| AttributeError
| OverflowError
| IndexError
| InvalidToken
| RequestException.

Inductive result (A : Type) : Type :=
| Return (a : A)
| Raise (e : exn).
Arguments Return {A} a.
Arguments Raise {A} e.

#[global] Instance result_ret : MRet result := fun A a => Return a.
#[global] Instance result_bind : MBind result := fun A B f r =>
  match r with
  | Return a => f a
  | Raise e => Raise e
  end.
#[global] Instance result_fmap : FMap result := fun A B f r =>
  match r with
  | Return a => Return (f a)
  | Raise e => Raise e
  end.

(** [bool(v)], the truth test of [if v], [not v] and [a and b]. *)
Definition truthy (v : pyval) : bool :=
  match v with
  | PyNone => false
  | PyBool b => b
  | PyInt n => negb (n =? 0)
  | PyStr s => negb (bool_decide (s = ""))
  | PyList l => match l with [] => false | _ :: _ => true end
  | PyDict d => negb (bool_decide (d = ∅))
  end.

(** [v.get(key)]: only a dict has the method. *)
Definition py_get (v : pyval) (key : string) : result pyval :=
  match v with
  | PyDict d => Return (default PyNone (d !! key))
  | _ => Raise AttributeError
  end.

(** [v[key]] with a string key. *)
Definition py_getitem (v : pyval) (key : string) : result pyval :=
  match v with
  | PyDict d => match d !! key with
                | Some x => Return x
                | None => Raise KeyError
                end
  | _ => Raise TypeError
  end.

(** ** Text

    A Python [str] is represented by its UTF-8 encoding, one [ascii] per
    byte.  Operations that look at characters decode the bytes first. *)

Definition char_code (c : ascii) : Z := Z.of_N (N_of_ascii c).

Definition char_in (lo hi : Z) (c : ascii) : bool :=
  (lo <=? char_code c) && (char_code c <=? hi).

(** A continuation byte of a multi-byte character. *)
Definition is_continuation (c : ascii) : bool := char_in 128 191 c.

(** A code point that three bytes encode: not one that fits fewer bytes
    and not a surrogate. *)
Definition three_byte (cp : Z) : bool :=
  (2048 <=? cp) && negb ((55296 <=? cp) && (cp <=? 57343)).

(** A code point that four bytes encode. *)
Definition four_byte (cp : Z) : bool := (65536 <=? cp) && (cp <=? 1114111).

(** The first character of a text, as its code point, and the text after
    it; nothing where the bytes do not start with a character. *)
Definition decode_char (s : string) : option (Z * string) :=
  match s with
  | EmptyString => None
  | String b0 r0 =>
      if char_code b0 <? 128 then Some (char_code b0, r0)
      else
        match r0 with
        | EmptyString => None
        | String b1 r1 =>
            if negb (is_continuation b1) then None
            else if char_in 194 223 b0
            then Some ((char_code b0 - 192) * 64 + (char_code b1 - 128), r1)
            else
              match r1 with
              | EmptyString => None
              | String b2 r2 =>
                  if negb (is_continuation b2) then None
                  else if char_in 224 239 b0
                  then
                    let cp := ((char_code b0 - 224) * 64 + (char_code b1 - 128)) * 64
                              + (char_code b2 - 128) in
                    if three_byte cp then Some (cp, r2) else None
                  else
                    match r2 with
                    | EmptyString => None
                    | String b3 r3 =>
                        let cp := (((char_code b0 - 240) * 64 + (char_code b1 - 128)) * 64
                                   + (char_code b2 - 128)) * 64 + (char_code b3 - 128) in
                        if is_continuation b3 && char_in 240 244 b0 && four_byte cp
                        then Some (cp, r3)
                        else None
                    end
              end
        end
  end.

(** The code points of the digit zero of every decimal script, each
    followed by its digits one to nine (Unicode 14.0, the character
    database of CPython 3.11). *)
Definition decimal_zeros : list Z :=
  [ 48; 1632; 1776; 1984; 2406; 2534; 2662; 2790;
     2918; 3046; 3174; 3302; 3430; 3558; 3664; 3792;
     3872; 4160; 4240; 6112; 6160; 6470; 6608; 6784;
     6800; 6992; 7088; 7232; 7248; 42528; 43216; 43264;
     43472; 43504; 43600; 44016; 65296; 66720; 68912; 69734;
     69872; 69942; 70096; 70384; 70736; 70864; 71248; 71360;
     71472; 71904; 72016; 72784; 73040; 73120; 92768; 92864;
     93008; 120782; 120792; 120802; 120812; 120822; 123200; 123632;
     125264; 130032 ].

(** The value of a decimal digit, as [str.isdecimal] and the [\d] of a
    [str] pattern know it. *)
Definition decimal_value (cp : Z) : option Z :=
  match find (fun z => (z <=? cp) && (cp <? z + 10)) decimal_zeros with
  | Some z => Some (cp - z)
  | None => None
  end.

(** ** [datetime.strptime(s, "%H:%M")]

    The format compiles to the regular expression
    [(?P<H>2[0-3]|[0-1]\d|\d):(?P<M>[0-5]\d|\d)], matched at the start of
    the string; text left over after the match is an error.  The bracketed
    classes are ASCII, [\d] is any decimal digit, and [int] reads the
    matched digits by their decimal values. *)

(** The value of an ASCII digit. *)
Definition digit_value (c : ascii) : Z := char_code c - 48.

(** [\d]: one decimal digit, its value and the text after it. *)
Definition match_digit (s : string) : option (Z * string) :=
  match decode_char s with
  | Some (cp, r) =>
      match decimal_value cp with
      | Some v => Some (v, r)
      | None => None
      end
  | None => None
  end.

(** The alternatives of the [H] group, in the order the matcher tries them,
    each with the text that follows it. *)
Definition match_H (s : string) : list (Z * string) :=
  (match s with
   | String c1 (String c2 r) =>
       if (char_code c1 =? 50) && char_in 48 51 c2
       then [(20 + digit_value c2, r)] else []
   | _ => []
   end) ++
  (match s with
   | String c1 r1 =>
       if char_in 48 49 c1
       then match match_digit r1 with
            | Some (v, r) => [(10 * digit_value c1 + v, r)]
            | None => []
            end
       else []
   | _ => []
   end) ++
  (match match_digit s with
   | Some (v, r) => [(v, r)]
   | None => []
   end).

(** The alternatives of the [M] group. *)
Definition match_M (s : string) : list (Z * string) :=
  (match s with
   | String c1 r1 =>
       if char_in 48 53 c1
       then match match_digit r1 with
            | Some (v, r) => [(10 * digit_value c1 + v, r)]
            | None => []
            end
       else []
   | _ => []
   end) ++
  (match match_digit s with
   | Some (v, r) => [(v, r)]
   | None => []
   end).

(** Backtracking: the first alternative whose continuation matches. *)
Fixpoint first_match {A B : Type} (k : A -> option B) (alts : list A) : option B :=
  match alts with
  | [] => None
  | a :: rest => match k a with
                 | Some b => Some b
                 | None => first_match k rest
                 end
  end.

(** [format_regex.match(data_string)]: hour, minute and the unmatched rest. *)
Definition regex_HM (s : string) : option (Z * Z * string) :=
  first_match
    (fun hr : Z * string =>
       match snd hr with
       | String c r =>
           if char_code c =? 58
           then first_match (fun mr : Z * string => Some (fst hr, fst mr, snd mr))
                            (match_M r)
           else None
       | EmptyString => None
       end)
    (match_H s).

(** A [datetime.time]. *)
Record pytime : Type := mk_time {
  t_hour : Z;
  t_minute : Z;
  t_second : Z;
  t_microsecond : Z
}.

(** [datetime.strptime(v, "%H:%M").time()]. *)
Definition strptime_HM (v : pyval) : result pytime :=
  match v with
  | PyStr s =>
      match regex_HM s with
      | Some (h, m, EmptyString) => Return (mk_time h m 0 0)
      | Some (_, _, String _ _) => Raise ValueError
      | None => Raise ValueError
      end
  | _ => Raise TypeError
  end.

(** ** [timedelta], [date] and [datetime] arithmetic

    A date is its proleptic Gregorian ordinal ([date.toordinal()]), the
    representation through which the library itself adds and subtracts. *)

Definition MAXORDINAL : Z := 3652059.
Definition US_PER_SECOND : Z := 1000000.
Definition US_PER_DAY : Z := 86400 * 1000000.

Record timedelta : Type := mk_timedelta {
  td_days : Z;
  td_seconds : Z;
  td_microseconds : Z
}.

(** [timedelta(days, seconds, microseconds)]: the normalising constructor,
    with [0 <= seconds < 86400] and [0 <= microseconds < 1000000] in the
    result. *)
Definition timedelta_new (days seconds microseconds : Z) : timedelta :=
  let total := (days * 86400 + seconds) * US_PER_SECOND + microseconds in
  {| td_days := total / US_PER_DAY;
     td_seconds := (total mod US_PER_DAY) / US_PER_SECOND;
     td_microseconds := total mod US_PER_SECOND |}.

(** [timedelta._to_microseconds]. *)
Definition to_microseconds (d : timedelta) : Z :=
  (td_days d * 86400 + td_seconds d) * US_PER_SECOND + td_microseconds d.

Definition timedelta_add (a b : timedelta) : timedelta :=
  timedelta_new (td_days a + td_days b) (td_seconds a + td_seconds b)
                (td_microseconds a + td_microseconds b).

Definition timedelta_neg (a : timedelta) : timedelta :=
  timedelta_new (- td_days a) (- td_seconds a) (- td_microseconds a).

(** [_divide_and_round(a, b)]: the quotient rounded to nearest, ties to even. *)
Definition divide_and_round (a b : Z) : Z :=
  let q := a / b in
  let r := 2 * (a mod b) in
  let greater_than_half := if 0 <? b then b <? r else r <? b in
  if greater_than_half || ((r =? b) && (q mod 2 =? 1)) then q + 1 else q.

(** [d / n] for an integer [n]. *)
Definition timedelta_truediv (d : timedelta) (n : Z) : timedelta :=
  timedelta_new 0 0 (divide_and_round (to_microseconds d) n).

(** [d + timedelta(days=n)] on a date. *)
Definition date_add_days (d n : Z) : result Z :=
  let o := d + n in
  if (0 <? o) && (o <=? MAXORDINAL) then Return o else Raise OverflowError.

Record datetime : Type := mk_datetime {
  dt_ordinal : Z;
  dt_hour : Z;
  dt_minute : Z;
  dt_second : Z;
  dt_microsecond : Z
}.

(** [datetime.combine(d, t)]. *)
Definition datetime_combine (d : Z) (t : pytime) : datetime :=
  mk_datetime d (t_hour t) (t_minute t) (t_second t) (t_microsecond t).

Definition dt_seconds (a : datetime) : Z :=
  dt_second a + dt_minute a * 60 + dt_hour a * 3600.

(** [a - b] for two datetimes. *)
Definition datetime_sub (a b : datetime) : timedelta :=
  timedelta_new (dt_ordinal a - dt_ordinal b) (dt_seconds a - dt_seconds b)
                (dt_microsecond a - dt_microsecond b).

(** [a + d] for a datetime and a timedelta. *)
Definition datetime_add (a : datetime) (d : timedelta) : result datetime :=
  let delta :=
    timedelta_add (timedelta_new (dt_ordinal a) (dt_seconds a) (dt_microsecond a)) d in
  let hour := td_seconds delta / 3600 in
  let rem := td_seconds delta mod 3600 in
  let minute := rem / 60 in
  let second := rem mod 60 in
  if (0 <? td_days delta) && (td_days delta <=? MAXORDINAL)
  then Return (mk_datetime (td_days delta) hour minute second (td_microseconds delta))
  else Raise OverflowError.

(** [a - d] for a datetime and a timedelta: [a + -d]. *)
Definition datetime_sub_delta (a : datetime) (d : timedelta) : result datetime :=
  datetime_add a (timedelta_neg d).

(** The position of an instant on the time line, in microseconds. *)
Definition instant (a : datetime) : Z :=
  (dt_ordinal a * 86400 + dt_seconds a) * US_PER_SECOND + dt_microsecond a.

(** ** Formatting *)

(** ["%d" % n]. *)
Definition fmt_d (n : Z) : string := NilZero.string_of_int (Z.to_int n).

(** Left padding with zeros up to [width] characters. *)
Fixpoint zero_pad (k : nat) (s : string) : string :=
  match k with
  | O => s
  | S k' => String "0" (zero_pad k' s)
  end.

(** ["%0<width>d" % n] for a non-negative [n]. *)
Definition fmt_0d (width : nat) (n : Z) : string :=
  let s := fmt_d n in zero_pad (width - String.length s) s.

(** [a.strftime("%H:%M")]. *)
Definition strftime_HM (a : datetime) : string :=
  fmt_0d 2 (dt_hour a) ++ ":" ++ fmt_0d 2 (dt_minute a).

(** [str(d)] for a timedelta. *)
Definition timedelta_str (d : timedelta) : string :=
  let mm := td_seconds d / 60 in
  let ss := td_seconds d mod 60 in
  let hh := mm / 60 in
  let mm := mm mod 60 in
  let s := fmt_d hh ++ ":" ++ fmt_0d 2 mm ++ ":" ++ fmt_0d 2 ss in
  let s := if td_days d =? 0 then s
           else fmt_d (td_days d) ++ " day"
                ++ (if Z.abs (td_days d) =? 1 then "" else "s") ++ ", " ++ s in
  if td_microseconds d =? 0 then s
  else s ++ "." ++ fmt_0d 6 (td_microseconds d).

(** [s.split('.')[0]]: the text before the first dot. *)
Fixpoint before_dot (s : string) : string :=
  match s with
  | EmptyString => EmptyString
  | String c r => if char_code c =? 46 then EmptyString else String c (before_dot r)
  end.

(** ** [calculate_times] *)

(** The local variables of [calculate_times] once the three inputs are parsed. *)
Record schedule : Type := mk_schedule {
  maghrib_dt : datetime;
  isha_dt : datetime;
  fajr_dt : datetime;
  night_duration : timedelta;
  midnight_dt : datetime;
  wake_up_dt : datetime;
  sleep_dt : datetime
}.

(** The body of the [try] block: the three lookups, then the three parses. *)
Definition parse_timings (today tomorrow : Z) (timings : pyval)
  : result (datetime * datetime * datetime) :=
  maghrib_time_str ← py_getitem timings "Maghrib";
  isha_time_str ← py_getitem timings "Isha";
  fajr_time_str ← py_getitem timings "Fajr";
  maghrib_t ← strptime_HM maghrib_time_str;
  isha_t ← strptime_HM isha_time_str;
  fajr_t ← strptime_HM fajr_time_str;
  mret (datetime_combine today maghrib_t,
        datetime_combine today isha_t,
        datetime_combine tomorrow fajr_t).

(** The arithmetic that follows the [try] block. *)
Definition derive_schedule (m i f : datetime) : result schedule :=
  let night := datetime_sub f m in
  let half_night := timedelta_truediv night 2 in
  midnight ← datetime_add m half_night;
  let wake_up := midnight in
  let sixth_night := timedelta_truediv night 6 in
  sleep ← datetime_sub_delta f sixth_night;
  mret (mk_schedule m i f night midnight wake_up sleep).

(** Everything [calculate_times] computes before it formats: [None] is the
    [return {}] of the [except (ValueError, KeyError)] clause.  [today] is
    the date read from the clock. *)
Definition calculate_schedule (today : Z) (timings : pyval) : result (option schedule) :=
  tomorrow ← date_add_days today 1;
  match parse_timings today tomorrow timings with
  | Raise ValueError | Raise KeyError => Return None
  | Raise e => Raise e
  | Return (m, i, f) => Some <$> derive_schedule m i f
  end.

(** The dict returned on success. *)
Definition format_schedule (s : schedule) : gmap string string :=
  {[ "Maghrib" := strftime_HM (maghrib_dt s);
     "Isha" := strftime_HM (isha_dt s);
     "Fajr" := strftime_HM (fajr_dt s);
     "Night_Duration" := before_dot (timedelta_str (night_duration s));
     "Islamic_Midnight" := strftime_HM (midnight_dt s);
     "Wake_Up_Suggestion" := strftime_HM (wake_up_dt s);
     "Sleep_Suggestion" := strftime_HM (sleep_dt s) ]}.

Definition calculate_times (today : Z) (timings : pyval) : result (gmap string string) :=
  s ← calculate_schedule today timings;
  mret (match s with
        | Some s => format_schedule s
        | None => ∅
        end).

(** ** The timings provider *)

(** The query of one [requests.get] call: the date in the URL and the
    three parameters. *)
Record request : Type := mk_request {
  req_date : Z;
  req_city : string;
  req_country : string;
  req_method : Z
}.

(** What [requests.get] can come back with.  [body] is what
    [response.json()] decodes, [None] when the body is not JSON. *)
Inductive http_reply : Type :=
| NoResponse
| Response (status : Z) (body : option pyval).

(** What a handler reads from outside the process: the clock, once in
    [get_prayer_times] and once in [calculate_times], and the service. *)
Record world : Type := mk_world {
  date_at_fetch : Z;
  http_get : request -> http_reply;
  date_at_calc : Z
}.

(** The body of the [try] block of [get_prayer_times].  A failed request, a
    4xx or 5xx status ([raise_for_status]) and an undecodable body
    ([response.json()]) all raise a [RequestException]. *)
Definition request_timings (reply : http_reply) : result pyval :=
  match reply with
  | NoResponse => Raise RequestException
  | Response status body =>
      if (400 <=? status) && (status <? 600) then Raise RequestException
      else match body with
           | None => Raise RequestException
           | Some data =>
               if negb (truthy data) then Return PyNone
               else
                 inner ← py_get data "data";
                 if negb (truthy inner) then Return PyNone
                 else
                   inner' ← py_getitem data "data";
                   timings ← py_get inner' "timings";
                   if negb (truthy timings) then Return PyNone
                   else
                     inner'' ← py_getitem data "data";
                     py_getitem inner'' "timings"
           end
  end.

(** [get_prayer_times]: [PyNone] is the unavailable signal. *)
Definition get_prayer_times (w : world) (city country : string) : result pyval :=
  let date_str := date_at_fetch w in
  match request_timings (http_get w (mk_request date_str city country 5)) with
  | Raise RequestException => Return PyNone
  | r => r
  end.

(** ** The session store and the chat transport *)

(** A value of [user_locations]: the dict with keys [city] and [country]. *)
Record location : Type := mk_location {
  city : string;
  country : string
}.

(** A write to one of the two process-wide dicts. *)
Inductive store_op : Type :=
| SetAwaiting (user : Z) (c : string)
| PopAwaiting (user : Z)
| SetLocation (user : Z) (loc : location).

(** The two process-wide dicts, and the writes made to them so far, oldest
    first.  The log is no data of the program: it keeps the order in which
    the statements of a handler take effect. *)
Record store : Type := mk_store {
  user_locations : gmap Z location;
  users_awaiting_city : gmap Z string;
  history : list store_op
}.

Record button : Type := mk_button {
  button_text : string;
  callback_data : string
}.

(** The texts the bot sends, by what they say. *)
Inductive message : Type :=
| MsgWelcome (user : Z)
| MsgChooseCountry (keyboard : list (list button))
| MsgNoLocation
| MsgSearchingSaved (city country : string)
| MsgCountryChosen (country : string)
| MsgUnavailable (city country : string)
| MsgProcessingError
| MsgSchedule (city country : string) (results : gmap string string)
| MsgHelp
| MsgLocationSaved (city country : string)
| MsgSearching (city country : string)
| MsgGuidance.

(** The calls a handler makes on the chat transport. *)
Inductive action : Type :=
| ReplyText (m : message)
| ReplyHtml (m : message)
| EditMessageText (m : message)
| AnswerCallback.

(** A sent text or an edited message. *)
Definition is_reply (a : action) : bool :=
  match a with
  | ReplyText _ | ReplyHtml _ | EditMessageText _ => true
  | AnswerCallback => false
  end.

(** A handler runs on the store and gives its outcome, the store it leaves
    and the transport calls it made, in order. *)
Definition handler (A : Type) : Type := store -> result A * store * list action.

#[global] Instance handler_ret : MRet handler := fun A a s => (Return a, s, []).
#[global] Instance handler_bind : MBind handler := fun A B k m s =>
  match m s with
  | (Return a, s', out) =>
      match k a s' with
      | (r, s'', out') => (r, s'', (out ++ out')%list)
      end
  | (Raise e, s', out) => (Raise e, s', out)
  end.

Definition send (a : action) : handler unit := fun s => (Return tt, s, [a]).
Definition lift {A : Type} (r : result A) : handler A := fun s => (r, s, []).
Definition get_store : handler store := fun s => (Return s, s, []).
Definition put_store (s' : store) : handler unit := fun _ => (Return tt, s', []).

(** [users_awaiting_city[user_id] = country]. *)
Definition set_awaiting (user : Z) (c : string) (s : store) : store :=
  mk_store (user_locations s) (<[user := c]> (users_awaiting_city s))
           (history s ++ [SetAwaiting user c]).

(** The store after [users_awaiting_city.pop(user_id)]. *)
Definition remove_awaiting (user : Z) (s : store) : store :=
  mk_store (user_locations s) (delete user (users_awaiting_city s))
           (history s ++ [PopAwaiting user]).

(** [user_locations[user_id] = {'city': city, 'country': country}]. *)
Definition set_location (user : Z) (c k : string) (s : store) : store :=
  mk_store (<[user := mk_location c k]> (user_locations s)) (users_awaiting_city s)
           (history s ++ [SetLocation user (mk_location c k)]).

(** ** Strings in the handlers *)

(** [ch.isspace()] for the character with code point [cp]: the ASCII
    blanks and separators, and the characters Unicode classes as space
    separators or gives the bidirectional type WS, B or S. *)
Definition is_whitespace (cp : Z) : bool :=
  ((9 <=? cp) && (cp <=? 13)) || ((28 <=? cp) && (cp <=? 32))
  || (cp =? 133) || (cp =? 160) || (cp =? 5760)
  || ((8192 <=? cp) && (cp <=? 8202))
  || (cp =? 8232) || (cp =? 8233) || (cp =? 8239) || (cp =? 8287) || (cp =? 12288).

(** The text after its first character, when that one is whitespace. *)
Definition drop_space (s : string) : option string :=
  match decode_char s with
  | Some (cp, r) => if is_whitespace cp then Some r else None
  | None => None
  end.

(** [s.lstrip()]: leading whitespace characters are dropped one at a time;
    a text has no more of them than it has bytes. *)
Fixpoint lstrip_from (rounds : nat) (s : string) : string :=
  match rounds with
  | O => s
  | S n =>
      match drop_space s with
      | Some r => lstrip_from n r
      | None => s
      end
  end.

Definition lstrip (s : string) : string := lstrip_from (String.length s) s.

(** [s.rstrip()]: the text up to the point after which only whitespace
    characters follow. *)
Fixpoint rstrip (s : string) : string :=
  match s with
  | EmptyString => EmptyString
  | String c r =>
      match lstrip s with
      | EmptyString => EmptyString
      | String _ _ => String c (rstrip r)
      end
  end.

(** [s.strip()]. *)
Definition strip (s : string) : string := rstrip (lstrip s).

(** [s.split("_", 1)[1]]: the text after the first underscore. *)
Fixpoint after_underscore (s : string) : result string :=
  match s with
  | EmptyString => Raise IndexError
  | String c r => if char_code c =? 95 then Return r else after_underscore r
  end.

(** ** The handlers *)

(** The rows of three buttons that [start] builds from [COUNTRIES]. *)
Fixpoint keyboard_rows (countries : list string) : list (list button) :=
  let b := fun c : string => mk_button c ("country_" ++ c) in
  match countries with
  | c1 :: c2 :: c3 :: rest => [b c1; b c2; b c3] :: keyboard_rows rest
  | [] => []
  | short => [map b short]
  end.

Definition start (COUNTRIES : list string) (user : Z) : handler unit :=
  send (ReplyHtml (MsgWelcome user));;
  send (ReplyText (MsgChooseCountry (keyboard_rows COUNTRIES))).

Definition fetch_and_send_times (w : world) (c k : string) : handler unit :=
  timings ← lift (get_prayer_times w c k);
  if negb (truthy timings) then send (ReplyText (MsgUnavailable c k))
  else
    results ← lift (calculate_times (date_at_calc w) timings);
    if bool_decide (results = ∅) then send (ReplyText MsgProcessingError)
    else send (ReplyText (MsgSchedule c k results)).

Definition times_command (w : world) (user : Z) : handler unit :=
  s ← get_store;
  match user_locations s !! user with
  | None => send (ReplyText MsgNoLocation)
  | Some loc =>
      send (ReplyText (MsgSearchingSaved (city loc) (country loc)));;
      fetch_and_send_times w (city loc) (country loc)
  end.

Definition button_callback (user : Z) (data : string) : handler unit :=
  send AnswerCallback;;
  if String.prefix "country_" data then
    c ← lift (after_underscore data);
    s ← get_store;
    put_store (set_awaiting user c s);;
    send (EditMessageText (MsgCountryChosen c))
  else mret tt.

Definition help_command : handler unit := send (ReplyText MsgHelp).

Definition handle_message (w : world) (user : Z) (message_text : string) : handler unit :=
  let text := strip message_text in
  s ← get_store;
  match users_awaiting_city s !! user with
  | Some c =>
      put_store (remove_awaiting user s);;
      s ← get_store;
      put_store (set_location user text c s);;
      send (ReplyText (MsgLocationSaved text c));;
      send (ReplyText (MsgSearching text c));;
      fetch_and_send_times w text c
  | None => send (ReplyText MsgGuidance)
  end.

(** The three kinds of update and the handlers [main] registers for them. *)
Inductive command : Type := CmdStart | CmdHelp | CmdTimes.

Inductive event : Type :=
| Command (c : command)
| ButtonPress (data : string)
| Text (message_text : string).

Definition handle_event (COUNTRIES : list string) (w : world) (user : Z) (ev : event)
  : handler unit :=
  match ev with
  | Command CmdStart => start COUNTRIES user
  | Command CmdHelp => help_command
  | Command CmdTimes => times_command w user
  | ButtonPress data => button_callback user data
  | Text message_text => handle_message w user message_text
  end.

(** ** Start-up *)

(** The second argument of [os.environ.get] on the [BOT_TOKEN] line. *)
Definition DEFAULT_TOKEN : string := "8337412245:AAHEmWDg3EM2Hsu6aNgRWq45l1eAJXEJKSw".

(** [BOT_TOKEN], read when the module is loaded. *)
Definition BOT_TOKEN (environ : gmap string string) : string :=
  default DEFAULT_TOKEN (environ !! "TELEGRAM_BOT_TOKEN").

(** What [main] passes to [add_handler]: a command by name with its
    handler, [button_callback] for callback queries, [handle_message] for
    text that is no command. *)
Inductive registration : Type :=
| CommandHandler (name : string) (c : command)
| CallbackQueryHandler
| MessageHandler.

(** The chat library, which is no part of the sources and is left open:
    it builds an application from a token, takes handlers, and polls for
    updates until it is stopped; building and polling may raise. *)
Record bot_library : Type := mk_library {
  application : Type;
  build : string -> result application;
  add_handler : application -> registration -> application;
  run_polling : application -> result unit
}.

(** [main()] with the value of the global [BOT_TOKEN]: the lines it prints
    and how it ends. *)
Definition main (lib : bot_library) (token : string) : list string * result unit :=
  match build lib token with
  | Raise e => ([], Raise e)
  | Return app =>
      let app := add_handler lib app (CommandHandler "start" CmdStart) in
      let app := add_handler lib app (CommandHandler "help" CmdHelp) in
      let app := add_handler lib app (CommandHandler "times" CmdTimes) in
      let app := add_handler lib app CallbackQueryHandler in
      let app := add_handler lib app MessageHandler in
      (["Bot is running... Press Ctrl-C to stop."], run_polling lib app)
  end.

(** The module run as a script: [BOT_TOKEN] is set while the module loads,
    then [main()] is called. *)
Definition run_module (lib : bot_library) (environ : gmap string string)
  : list string * result unit :=
  main lib (BOT_TOKEN environ).

(** ** Inputs of the examples and notions used in the statements *)

(** The input of the worked scenario. *)
Definition scenario_timings : pyval :=
  PyDict {[ "Maghrib" := PyStr "18:00"; "Isha" := PyStr "19:30"; "Fajr" := PyStr "04:30" ]}.

(** A date the clock can show with a following day on the calendar. *)
Definition valid_today (today : Z) : Prop := 1 <= today < MAXORDINAL.

(** What [strptime] with ["%H:%M"] can return: hour and minute in range,
    no seconds. *)
Definition valid_time (t : pytime) : Prop :=
  0 <= t_hour t < 24 /\ 0 <= t_minute t < 60 /\ t_second t = 0 /\ t_microsecond t = 0.

(** The clock value of a time of day, in minutes after 00:00. *)
Definition clock_minutes (t : pytime) : Z := t_hour t * 60 + t_minute t.

(** The datetime that lies [x] microseconds after ordinal 0, 00:00. *)
Definition datetime_of_us (x : Z) : datetime :=
  let secs := (x mod US_PER_DAY) / US_PER_SECOND in
  mk_datetime (x / US_PER_DAY) (secs / 3600) ((secs mod 3600) / 60)
              ((secs mod 3600) mod 60) (x mod US_PER_SECOND).

(** The normalised timedelta that represents [x] microseconds. *)
Definition timedelta_of_us (x : Z) : timedelta :=
  {| td_days := x / US_PER_DAY;
     td_seconds := (x mod US_PER_DAY) / US_PER_SECOND;
     td_microseconds := x mod US_PER_SECOND |}.

(** The value under [key] is a string that parses to the time [t]. *)
Definition has_time (timings : pyval) (key : string) (t : pytime) : Prop :=
  exists v, py_getitem timings key = Return v /\ strptime_HM v = Return t.

(** The length of the night in minutes, from the two clock values. *)
Definition night_minutes (tm tf : pytime) : Z :=
  1440 + clock_minutes tf - clock_minutes tm.

(** The schedule of a night that starts at clock time [tm] on day [today]
    and ends at clock time [tf] on the next day. *)
Definition schedule_of (today : Z) (tm ti tf : pytime) : schedule :=
  let m := datetime_combine today tm in
  let f := datetime_combine (today + 1) tf in
  let midnight := datetime_of_us (instant m + night_minutes tm tf * 30000000) in
  mk_schedule m (datetime_combine today ti) f (datetime_sub f m) midnight midnight
              (datetime_of_us (instant f - night_minutes tm tf * 10000000)).

(** A mapping whose Fajr is not earlier on the clock than its Maghrib. *)
Definition late_fajr_timings : pyval :=
  PyDict {[ "Maghrib" := PyStr "18:00"; "Isha" := PyStr "19:30"; "Fajr" := PyStr "18:00" ]}.

(** The scenario with another Isha value. *)
Definition scenario_other_isha : gmap string pyval :=
  {[ "Maghrib" := PyStr "18:00"; "Isha" := PyStr "21:05"; "Fajr" := PyStr "04:30" ]}.

(** The string [s] is a valid HH:MM value. *)
Definition parses (s : string) : Prop := exists t, strptime_HM (PyStr s) = Return t.

(** Timings as a JSON body can carry them: the Maghrib value is null. *)
Definition null_maghrib_timings : gmap string pyval :=
  {[ "Maghrib" := PyNone; "Isha" := PyStr "19:30"; "Fajr" := PyStr "04:30" ]}.

(** The scenario without its Fajr entry. *)
Definition timings_without_fajr : gmap string pyval :=
  {[ "Maghrib" := PyStr "18:00"; "Isha" := PyStr "19:30" ]}.

(** The three parts of a finished turn: how the handler ended, the store it
    left and the transport calls it made. *)
Definition outcome {A : Type} (x : result A * store * list action) : result A := fst (fst x).
Definition store_after {A : Type} (x : result A * store * list action) : store := snd (fst x).
Definition sent {A : Type} (x : result A * store * list action) : list action := snd x.

(** A service that cannot be reached. *)
Definition offline : world := mk_world 739558 (fun _ => NoResponse) 739558.

(** A service that answers every query with [reply]. *)
Definition answering (reply : http_reply) : world := mk_world 739558 (fun _ => reply) 739558.

(** C5, as the specification words it: the saved city is the sent text. *)
Definition saves_sent_text (w : world) (user : Z) (message_text c : string) (s : store) : Prop :=
  users_awaiting_city s !! user = Some c ->
  let s' := store_after (handle_message w user message_text s) in
  user_locations s' !! user = Some (mk_location message_text c)
  /\ users_awaiting_city s' !! user = None.

(** A user who picked Egypt and is asked for a city. *)
Definition egypt_pending : store := mk_store ∅ {[ 7 := "Egypt" ]} [].

(** An entry that is absent or whose value is false in a truth test. *)
Definition absent_or_falsy (o : option pyval) : Prop :=
  match o with
  | None => True
  | Some v => truthy v = false
  end.

(** The answers on which [get_prayer_times] takes one of its two
    [return None] exits. *)
Inductive provider_fails : http_reply -> Prop :=
| fails_network : provider_fails NoResponse
| fails_status (status : Z) (body : option pyval) :
    400 <= status < 600 -> provider_fails (Response status body)
| fails_not_json (status : Z) : provider_fails (Response status None)
| fails_falsy_body (status : Z) (data : pyval) :
    truthy data = false -> provider_fails (Response status (Some data))
| fails_no_data (status : Z) (d : gmap string pyval) :
    absent_or_falsy (d !! "data") -> provider_fails (Response status (Some (PyDict d)))
| fails_no_timings (status : Z) (d d' : gmap string pyval) :
    d !! "data" = Some (PyDict d') -> absent_or_falsy (d' !! "timings") ->
    provider_fails (Response status (Some (PyDict d))).

(** [data["data"]["timings"]] when the body has it. *)
Definition nested_timings (data : pyval) : option pyval :=
  match data with
  | PyDict d => match d !! "data" with
                | Some (PyDict d') => d' !! "timings"
                | _ => None
                end
  | _ => None
  end.

(** C6, as the specification words it: no answer, an answer outside 2xx,
    a body that is not JSON, or a body without the nested timings field. *)
Definition fails_as_specified (reply : http_reply) : Prop :=
  match reply with
  | NoResponse => True
  | Response status body =>
      ~ (200 <= status < 300)
      \/ match body with
         | None => True
         | Some data => nested_timings data = None
         end
  end.

(** Every such answer gives the unavailable signal. *)
Definition unavailable_on_every_failure : Prop :=
  forall (reply : http_reply) (c k : string),
    fails_as_specified reply -> get_prayer_times (answering reply) c k = Return PyNone.

(** A body with timings under a 3xx status. *)
Definition multiple_choices : http_reply :=
  Response 300 (Some (PyDict {[ "data" := PyDict {[ "timings" :=
    PyDict {[ "Maghrib" := PyStr "18:00"; "Isha" := PyStr "19:30"; "Fajr" := PyStr "04:30" ]} ]} ]})).

(** A 2xx body whose [data] entry is a text. *)
Definition data_is_text : http_reply :=
  Response 200 (Some (PyDict {[ "data" := PyStr "Unable to locate city" ]})).

(** An empty body under a 2xx status. *)
Definition empty_body : http_reply := Response 200 None.

(** The turn made at least one reply. *)
Definition replied {A : Type} (x : result A * store * list action) : bool :=
  existsb is_reply (sent x).

(** C7, as the specification words it: every event gets a reply. *)
Definition always_replies : Prop :=
  forall (COUNTRIES : list string) (w : world) (user : Z) (ev : event) (s : store),
    replied (handle_event COUNTRIES w user ev s) = true.

(** C8, as the specification words it: without the variable, start-up
    fails, whatever the library would do with a token. *)
Definition fails_without_token : Prop :=
  forall (lib : bot_library) (environ : gmap string string),
    environ !! "TELEGRAM_BOT_TOKEN" = None ->
    exists e, run_module lib environ = ([], Raise e).

(** A library that takes the token written in the source and no other, and
    polls until it is stopped. *)
Definition default_only : bot_library :=
  mk_library (list registration)
    (fun token => if bool_decide (token = DEFAULT_TOKEN) then Return [] else Raise InvalidToken)
    (fun app r => (app ++ [r])%list)
    (fun _ => Return tt).

(** The five handlers of [main], in the order it adds them. *)
Definition registered_handlers : list registration :=
  [ CommandHandler "start" CmdStart; CommandHandler "help" CmdHelp;
    CommandHandler "times" CmdTimes; CallbackQueryHandler; MessageHandler ].

(** The application after the handlers of [main] were added to it. *)
Definition with_handlers (lib : bot_library) (app : application lib) : application lib :=
  fold_left (add_handler lib) registered_handlers app.

(** ** Notions used in the further properties *)

(** The keys of the dict a successful [calculate_times] returns. *)
Definition schedule_keys : gset string :=
  {[ "Maghrib"; "Isha"; "Fajr"; "Night_Duration"; "Islamic_Midnight";
     "Wake_Up_Suggestion"; "Sleep_Suggestion" ]}.




(** The check that minute [n] of the day, written with two digits each for
    hour and minute, reads back as the same time. *)
Definition reads_back (n : Z) : bool :=
  match strptime_HM (PyStr (fmt_0d 2 (n / 60) ++ ":" ++ fmt_0d 2 (n mod 60))) with
  | Return t => (t_hour t =? n / 60) && (t_minute t =? n mod 60)
                && (t_second t =? 0) && (t_microsecond t =? 0)
  | Raise _ => false
  end.

(** The text under [key] in a returned dict parses to the time [t]. *)
Definition reads_as (r : gmap string string) (key : string) (t : pytime) : Prop :=
  exists text, r !! key = Some text /\ strptime_HM (PyStr text) = Return t.

(** The text starts with a whitespace character. *)
Definition starts_with_space (s : string) : bool :=
  match drop_space s with
  | Some _ => true
  | None => false
  end.

(** The text ends with a whitespace character: what is left at some
    position of it is one whitespace character and nothing more. *)
Fixpoint ends_with_space (s : string) : bool :=
  match s with
  | EmptyString => false
  | String _ r =>
      match drop_space s with
      | Some EmptyString => true
      | _ => ends_with_space r
      end
  end.

(** The per-user view of the store: the saved location and the country
    that waits for a city. *)
Definition session (s : store) (user : Z) : option location * option string :=
  (user_locations s !! user, users_awaiting_city s !! user).

(** The country a button payload selects, if it selects one. *)
Definition chosen_country (data : string) : option string :=
  if String.prefix "country_" data then
    match after_underscore data with
    | Return c => Some c
    | Raise _ => None
    end
  else None.

(** Where one event of [user] takes the user's session. *)
Definition next_session (ev : event) (old : option location * option string)
  : option location * option string :=
  match ev with
  | Command _ => old
  | ButtonPress data =>
      match chosen_country data with
      | Some c => (fst old, Some c)
      | None => old
      end
  | Text message_text =>
      match snd old with
      | Some c => (Some (mk_location (strip message_text) c), None)
      | None => old
      end
  end.

(** The button [start] makes for a country. *)
Definition country_button (c : string) : button := mk_button c ("country_" ++ c).

(** A 2xx body with the timings [d] where the service puts them. *)
Definition timings_reply (d : gmap string pyval) : http_reply :=
  Response 200 (Some (PyDict {[ "data" := PyDict {[ "timings" := PyDict d ]} ]})).

(** Timings as the service has sent them with a zone after each time. *)
Definition zoned_timings : gmap string pyval :=
  {[ "Maghrib" := PyStr "18:00 (EET)"; "Isha" := PyStr "19:30 (EET)";
     "Fajr" := PyStr "04:30 (EET)" ]}.

(** * Proofs *)

(** ** Arithmetic lemmas *)

Ltac unfold_units := unfold US_PER_DAY, US_PER_SECOND, MAXORDINAL in *.
Ltac divmod_lia := unfold_units; Z.div_mod_to_equations; lia.

Lemma timedelta_new_total (d s u : Z) :
  timedelta_new d s u = timedelta_of_us ((d * 86400 + s) * US_PER_SECOND + u).
Proof. reflexivity. Qed.

Lemma to_microseconds_of_us (x : Z) : to_microseconds (timedelta_of_us x) = x.
Proof. unfold to_microseconds, timedelta_of_us; simpl. divmod_lia. Qed.

Lemma to_microseconds_new (d s u : Z) :
  to_microseconds (timedelta_new d s u) = (d * 86400 + s) * US_PER_SECOND + u.
Proof. rewrite timedelta_new_total. apply to_microseconds_of_us. Qed.

Lemma timedelta_add_total (a b : timedelta) :
  timedelta_add a b = timedelta_of_us (to_microseconds a + to_microseconds b).
Proof.
  unfold timedelta_add. rewrite timedelta_new_total. f_equal.
  unfold to_microseconds. ring.
Qed.

Lemma to_microseconds_neg (a : timedelta) :
  to_microseconds (timedelta_neg a) = - to_microseconds a.
Proof.
  unfold timedelta_neg. rewrite to_microseconds_new. unfold to_microseconds. ring.
Qed.

Lemma to_microseconds_truediv (a : timedelta) (n : Z) :
  to_microseconds (timedelta_truediv a n) = divide_and_round (to_microseconds a) n.
Proof. unfold timedelta_truediv. rewrite to_microseconds_new. ring. Qed.

(** Dividing an exact multiple rounds nothing. *)
Lemma divide_and_round_exact (k b : Z) : 0 < b -> divide_and_round (k * b) b = k.
Proof.
  intros Hb. unfold divide_and_round.
  rewrite Z.mod_mul by lia. rewrite Z.div_mul by lia.
  change (2 * 0) with 0.
  replace (0 <? b) with true by (symmetry; apply Z.ltb_lt; lia).
  replace (b <? 0) with false by (symmetry; apply Z.ltb_ge; lia).
  replace (0 =? b) with false by (symmetry; apply Z.eqb_neq; lia).
  reflexivity.
Qed.

Lemma to_microseconds_sub (a b : datetime) :
  to_microseconds (datetime_sub a b) = instant a - instant b.
Proof.
  unfold datetime_sub. rewrite to_microseconds_new. unfold instant. ring.
Qed.

Lemma instant_of_us (x : Z) : instant (datetime_of_us x) = x.
Proof. unfold instant, datetime_of_us, dt_seconds; simpl. divmod_lia. Qed.

(** [datetime.__add__] in one step: the sum of the two positions, checked
    against the range of dates. *)
Lemma datetime_add_spec (a : datetime) (d : timedelta) :
  datetime_add a d =
  let x := instant a + to_microseconds d in
  if (0 <? x / US_PER_DAY) && (x / US_PER_DAY <=? MAXORDINAL)
  then Return (datetime_of_us x) else Raise OverflowError.
Proof.
  unfold datetime_add. rewrite timedelta_add_total, to_microseconds_new.
  reflexivity.
Qed.

Lemma datetime_sub_delta_spec (a : datetime) (d : timedelta) :
  datetime_sub_delta a d =
  let x := instant a - to_microseconds d in
  if (0 <? x / US_PER_DAY) && (x / US_PER_DAY <=? MAXORDINAL)
  then Return (datetime_of_us x) else Raise OverflowError.
Proof.
  unfold datetime_sub_delta. rewrite datetime_add_spec, to_microseconds_neg.
  reflexivity.
Qed.

(** A position written as day and time of day. *)
Lemma datetime_of_us_split (d r : Z) :
  0 <= r < US_PER_DAY ->
  datetime_of_us (d * US_PER_DAY + r) =
  mk_datetime d (r / US_PER_SECOND / 3600) ((r / US_PER_SECOND) mod 3600 / 60)
              ((r / US_PER_SECOND) mod 3600 mod 60) (r mod US_PER_SECOND).
Proof.
  intros Hr. unfold datetime_of_us.
  assert (E1 : (d * US_PER_DAY + r) / US_PER_DAY = d) by divmod_lia.
  assert (E2 : (d * US_PER_DAY + r) mod US_PER_DAY = r) by divmod_lia.
  assert (E3 : (d * US_PER_DAY + r) mod US_PER_SECOND = r mod US_PER_SECOND)
    by divmod_lia.
  rewrite E1, E2, E3. reflexivity.
Qed.

(** ** What [strptime] accepts *)

Lemma char_in_bounds (lo hi : Z) (c : ascii) :
  char_in lo hi c = true -> lo <= char_code c <= hi.
Proof. unfold char_in. intros H. apply andb_prop in H. lia. Qed.

Lemma first_match_Some {A B : Type} (k : A -> option B) (alts : list A) (b : B) :
  first_match k alts = Some b -> exists a, a ∈ alts /\ k a = Some b.
Proof.
  induction alts as [| a rest IH]; simpl; [discriminate |].
  destruct (k a) eqn:E.
  - intros [= <-]. exists a. split; [left | exact E].
  - intros H. destruct (IH H) as (a' & Hin & Hk). exists a'. split; [by right | exact Hk].
Qed.

Lemma decimal_value_range (cp v : Z) : decimal_value cp = Some v -> 0 <= v <= 9.
Proof.
  unfold decimal_value.
  destruct (find _ decimal_zeros) as [z |] eqn:F; [| discriminate].
  intros [= <-]. apply find_some in F as [_ F].
  apply andb_prop in F as [F1 F2]. lia.
Qed.

Lemma match_digit_range (s r : string) (v : Z) :
  match_digit s = Some (v, r) -> 0 <= v <= 9.
Proof.
  unfold match_digit. destruct (decode_char s) as [[cp r'] |]; [| discriminate].
  destruct (decimal_value cp) as [v' |] eqn:D; [| discriminate].
  intros [= <- _]. eapply decimal_value_range, D.
Qed.

Lemma match_H_range (s : string) (h : Z) (r : string) :
  (h, r) ∈ match_H s -> 0 <= h < 24.
Proof.
  unfold match_H, digit_value. intros H.
  apply elem_of_app in H as [H | H]; [| apply elem_of_app in H as [H | H]].
  - destruct s as [| c1 [| c2 s]]; try (by apply elem_of_nil in H).
    destruct ((char_code c1 =? 50) && char_in 48 51 c2) eqn:E;
      [| by apply elem_of_nil in H].
    apply list_elem_of_singleton in H; injection H as -> _.
    apply andb_prop in E as [_ E]. apply char_in_bounds in E. lia.
  - destruct s as [| c1 r1]; [by apply elem_of_nil in H |].
    destruct (char_in 48 49 c1) eqn:E; [| by apply elem_of_nil in H].
    destruct (match_digit r1) as [[v r'] |] eqn:D; [| by apply elem_of_nil in H].
    apply list_elem_of_singleton in H; injection H as -> _.
    apply char_in_bounds in E. apply match_digit_range in D. lia.
  - destruct (match_digit s) as [[v r'] |] eqn:D; [| by apply elem_of_nil in H].
    apply list_elem_of_singleton in H; injection H as -> _.
    apply match_digit_range in D. lia.
Qed.

Lemma match_M_range (s : string) (m : Z) (r : string) :
  (m, r) ∈ match_M s -> 0 <= m < 60.
Proof.
  unfold match_M, digit_value. intros H.
  apply elem_of_app in H as [H | H].
  - destruct s as [| c1 r1]; [by apply elem_of_nil in H |].
    destruct (char_in 48 53 c1) eqn:E; [| by apply elem_of_nil in H].
    destruct (match_digit r1) as [[v r'] |] eqn:D; [| by apply elem_of_nil in H].
    apply list_elem_of_singleton in H; injection H as -> _.
    apply char_in_bounds in E. apply match_digit_range in D. lia.
  - destruct (match_digit s) as [[v r'] |] eqn:D; [| by apply elem_of_nil in H].
    apply list_elem_of_singleton in H; injection H as -> _.
    apply match_digit_range in D. lia.
Qed.

Lemma regex_HM_range (s : string) (h m : Z) (r : string) :
  regex_HM s = Some (h, m, r) -> 0 <= h < 24 /\ 0 <= m < 60.
Proof.
  unfold regex_HM. intros H.
  apply first_match_Some in H as ([h' r'] & Hh & Hk). simpl in Hk.
  destruct r' as [| c r']; [discriminate |].
  destruct (char_code c =? 58); [| discriminate].
  apply first_match_Some in Hk as ([m' r''] & Hm & Hk). simpl in Hk.
  injection Hk as -> -> ->.
  split; [eapply match_H_range | eapply match_M_range]; eassumption.
Qed.

(** Whatever [strptime] returns is a time of day with minute precision. *)
Lemma strptime_HM_valid (v : pyval) (t : pytime) :
  strptime_HM v = Return t -> valid_time t.
Proof.
  destruct v; try discriminate. simpl.
  destruct (regex_HM s) as [[[h m] r] |] eqn:E; [| discriminate].
  destruct r; [| discriminate].
  intros [= <-]. apply regex_HM_range in E. unfold valid_time; simpl. lia.
Qed.

(** Only a string parses. *)
Lemma strptime_HM_str (v : pyval) (t : pytime) :
  strptime_HM v = Return t -> exists s, v = PyStr s.
Proof. destruct v; try discriminate. eauto. Qed.

(** On a string the only failure is [ValueError]. *)
Lemma strptime_HM_str_fail (s : string) (e : exn) :
  strptime_HM (PyStr s) = Raise e -> e = ValueError.
Proof.
  simpl. destruct (regex_HM s) as [[[h m] r] |]; [destruct r |]; congruence.
Qed.

(** ** The schedule in closed form *)

Lemma instant_combine (d : Z) (t : pytime) :
  valid_time t ->
  instant (datetime_combine d t) = (d * 1440 + clock_minutes t) * 60000000.
Proof.
  intros (_ & _ & Hs & Hu).
  unfold instant, datetime_combine, dt_seconds, clock_minutes, US_PER_SECOND; simpl.
  rewrite Hs, Hu. ring.
Qed.

Lemma clock_minutes_range (t : pytime) : valid_time t -> 0 <= clock_minutes t < 1440.
Proof. unfold valid_time, clock_minutes. lia. Qed.

Lemma night_minutes_range (tm tf : pytime) :
  valid_time tm -> valid_time tf -> 1 <= night_minutes tm tf <= 2879.
Proof.
  intros Hm Hf. apply clock_minutes_range in Hm, Hf. unfold night_minutes. lia.
Qed.

Lemma has_time_valid (timings : pyval) (key : string) (t : pytime) :
  has_time timings key t -> valid_time t.
Proof. intros (v & _ & H). eapply strptime_HM_valid, H. Qed.

Lemma has_time_dict (timings : pyval) (key : string) (t : pytime) :
  has_time timings key t ->
  exists d s, timings = PyDict d /\ d !! key = Some (PyStr s)
              /\ strptime_HM (PyStr s) = Return t.
Proof.
  intros (v & Hget & Hp). destruct timings; try discriminate.
  simpl in Hget. destruct (d !! key) eqn:E; [| discriminate].
  injection Hget as ->. destruct (strptime_HM_str _ _ Hp) as [s ->]. eauto.
Qed.

Lemma parse_timings_ok (today tomorrow : Z) (timings : pyval) (tm ti tf : pytime) :
  has_time timings "Maghrib" tm -> has_time timings "Isha" ti ->
  has_time timings "Fajr" tf ->
  parse_timings today tomorrow timings =
  Return (datetime_combine today tm, datetime_combine today ti,
          datetime_combine tomorrow tf).
Proof.
  intros (vm & Gm & Pm) (vi & Gi & Pi) (vf & Gf & Pf).
  unfold parse_timings. rewrite Gm, Gi, Gf. simpl. rewrite Pm, Pi, Pf. reflexivity.
Qed.

Lemma derive_schedule_ok (today : Z) (tm ti tf : pytime) :
  valid_today today -> valid_time tm -> valid_time tf ->
  derive_schedule (datetime_combine today tm) (datetime_combine today ti)
                  (datetime_combine (today + 1) tf)
  = Return (schedule_of today tm ti tf).
Proof.
  intros Ht Hm Hf. unfold derive_schedule, schedule_of.
  pose proof (night_minutes_range _ _ Hm Hf) as HD.
  pose proof (clock_minutes_range _ Hm) as HM.
  pose proof (clock_minutes_range _ Hf) as HF.
  rewrite datetime_add_spec, datetime_sub_delta_spec.
  rewrite !to_microseconds_truediv, to_microseconds_sub.
  rewrite !instant_combine by assumption.
  set (diff := ((today + 1) * 1440 + clock_minutes tf) * 60000000
               - (today * 1440 + clock_minutes tm) * 60000000).
  assert (E2 : divide_and_round diff 2 = night_minutes tm tf * 30000000).
  { replace diff with (night_minutes tm tf * 30000000 * 2)
      by (unfold diff, night_minutes; ring).
    apply divide_and_round_exact; lia. }
  assert (E6 : divide_and_round diff 6 = night_minutes tm tf * 10000000).
  { replace diff with (night_minutes tm tf * 10000000 * 6)
      by (unfold diff, night_minutes; ring).
    apply divide_and_round_exact; lia. }
  rewrite E2, E6. clear E2 E6 diff. cbv zeta.
  unfold valid_today in Ht. unfold night_minutes in *.
  replace (0 <? _) with true by (symmetry; apply Z.ltb_lt; divmod_lia).
  replace (_ <=? MAXORDINAL) with true by (symmetry; apply Z.leb_le; divmod_lia).
  simpl.
  replace (0 <? _) with true by (symmetry; apply Z.ltb_lt; divmod_lia).
  replace (_ <=? MAXORDINAL) with true by (symmetry; apply Z.leb_le; divmod_lia).
  reflexivity.
Qed.

(** With three parsable inputs [calculate_times] runs to its last line. *)
Lemma calculate_schedule_ok (today : Z) (timings : pyval) (tm ti tf : pytime) :
  valid_today today ->
  has_time timings "Maghrib" tm -> has_time timings "Isha" ti ->
  has_time timings "Fajr" tf ->
  calculate_schedule today timings = Return (Some (schedule_of today tm ti tf)).
Proof.
  intros Ht Hm Hi Hf. unfold calculate_schedule, date_add_days.
  unfold valid_today in Ht.
  replace ((0 <? today + 1) && (today + 1 <=? MAXORDINAL)) with true
    by (symmetry; apply andb_true_intro; split;
        [apply Z.ltb_lt | apply Z.leb_le]; lia).
  simpl. rewrite (parse_timings_ok _ _ _ _ _ _ Hm Hi Hf).
  rewrite derive_schedule_ok; eauto using has_time_valid.
Qed.

(** ** The output does not depend on the date *)

Lemma strftime_HM_of_us_shift (x k : Z) :
  strftime_HM (datetime_of_us (x + k * US_PER_DAY)) = strftime_HM (datetime_of_us x).
Proof.
  unfold strftime_HM, datetime_of_us; simpl.
  rewrite Z.mod_add by (unfold US_PER_DAY; lia). reflexivity.
Qed.

Lemma format_schedule_any_day (today : Z) (tm ti tf : pytime) :
  valid_time tm -> valid_time tf ->
  format_schedule (schedule_of today tm ti tf) = format_schedule (schedule_of 1 tm ti tf).
Proof.
  intros Hm Hf. unfold format_schedule, schedule_of; simpl.
  rewrite !instant_combine by assumption.
  replace ((today * 1440 + clock_minutes tm) * 60000000 + night_minutes tm tf * 30000000)
    with ((1 * 1440 + clock_minutes tm) * 60000000 + night_minutes tm tf * 30000000
          + (today - 1) * US_PER_DAY) by (unfold US_PER_DAY; ring).
  replace (((today + 1) * 1440 + clock_minutes tf) * 60000000 - night_minutes tm tf * 10000000)
    with (((1 + 1) * 1440 + clock_minutes tf) * 60000000 - night_minutes tm tf * 10000000
          + (today - 1) * US_PER_DAY) by (unfold US_PER_DAY; ring).
  rewrite !strftime_HM_of_us_shift.
  unfold datetime_sub; simpl.
  replace (today + 1 - today) with (1 + 1 - 1) by ring.
  reflexivity.
Qed.

(** The result of a successful call, as a function of the three parsed times. *)
Lemma calculate_times_ok (today : Z) (timings : pyval) (tm ti tf : pytime) :
  valid_today today ->
  has_time timings "Maghrib" tm -> has_time timings "Isha" ti ->
  has_time timings "Fajr" tf ->
  calculate_times today timings = Return (format_schedule (schedule_of 1 tm ti tf)).
Proof.
  intros Ht Hm Hi Hf. unfold calculate_times.
  rewrite (calculate_schedule_ok _ _ _ _ _ Ht Hm Hi Hf). simpl.
  rewrite format_schedule_any_day; eauto using has_time_valid.
Qed.

Lemma scenario_has_times :
  has_time scenario_timings "Maghrib" (mk_time 18 0 0 0)
  /\ has_time scenario_timings "Isha" (mk_time 19 30 0 0)
  /\ has_time scenario_timings "Fajr" (mk_time 4 30 0 0).
Proof.
  repeat split; eexists; (split; [vm_compute; reflexivity | vm_compute; reflexivity]).
Qed.

(** ** Claims about [calculate_times] *)

(** C1. For the mapping Maghrib 18:00, Isha 19:30, Fajr 04:30,
    [calculate_times] returns a dict in which the night duration reads
    10:30:00, the Islamic midnight and the wake-up suggestion read 23:15 and
    the sleep suggestion reads 02:45. *)
Theorem calculate_times_scenario (today : Z) :
  valid_today today ->
  exists r, calculate_times today scenario_timings = Return r
            /\ r !! "Night_Duration" = Some "10:30:00"
            /\ r !! "Islamic_Midnight" = Some "23:15"
            /\ r !! "Wake_Up_Suggestion" = Some "23:15"
            /\ r !! "Sleep_Suggestion" = Some "02:45".
Proof.
  intros Ht. destruct scenario_has_times as (Hm & Hi & Hf).
  eexists. split; [apply (calculate_times_ok _ _ _ _ _ Ht Hm Hi Hf) |].
  repeat split; vm_compute; reflexivity.
Qed.

Lemma calculate_times_scenario_witness :
  valid_today 739558
  /\ exists r, calculate_times 739558 scenario_timings = Return r
               /\ r !! "Night_Duration" = Some "10:30:00"
               /\ r !! "Islamic_Midnight" = Some "23:15"
               /\ r !! "Wake_Up_Suggestion" = Some "23:15"
               /\ r !! "Sleep_Suggestion" = Some "02:45".
Proof.
  assert (H : valid_today 739558) by (unfold valid_today, MAXORDINAL; lia).
  split; [exact H | exact (calculate_times_scenario 739558 H)].
Defined.

Lemma night_duration_of (today : Z) (tm ti tf : pytime) :
  valid_time tm -> valid_time tf ->
  to_microseconds (night_duration (schedule_of today tm ti tf))
  = night_minutes tm tf * 60000000.
Proof.
  intros Hm Hf. unfold schedule_of; simpl.
  rewrite to_microseconds_sub, !instant_combine by assumption.
  unfold night_minutes. ring.
Qed.

(** C2. When the three values are valid HH:MM strings and the clock value
    of Fajr is earlier than that of Maghrib, the night duration, Fajr on the
    next day minus Maghrib on the reference day, is strictly positive and
    strictly less than 24 hours. *)
Theorem night_duration_within_a_day (today : Z) (timings : pyval) (tm ti tf : pytime) :
  valid_today today ->
  has_time timings "Maghrib" tm -> has_time timings "Isha" ti ->
  has_time timings "Fajr" tf ->
  clock_minutes tf < clock_minutes tm ->
  exists s, calculate_schedule today timings = Return (Some s)
            /\ dt_ordinal (maghrib_dt s) = today
            /\ dt_ordinal (fajr_dt s) = today + 1
            /\ night_duration s = datetime_sub (fajr_dt s) (maghrib_dt s)
            /\ 0 < to_microseconds (night_duration s) < US_PER_DAY.
Proof.
  intros Ht Hm Hi Hf Hlt. exists (schedule_of today tm ti tf).
  split; [by apply calculate_schedule_ok |].
  repeat (split; [reflexivity |]).
  pose proof (has_time_valid _ _ _ Hm) as Vm.
  pose proof (has_time_valid _ _ _ Hf) as Vf.
  rewrite night_duration_of by assumption.
  pose proof (clock_minutes_range _ Vm). pose proof (clock_minutes_range _ Vf).
  unfold night_minutes, US_PER_DAY. lia.
Qed.

Lemma night_duration_within_a_day_witness :
  exists s, calculate_schedule 739558 scenario_timings = Return (Some s)
            /\ dt_ordinal (maghrib_dt s) = 739558
            /\ dt_ordinal (fajr_dt s) = 739558 + 1
            /\ night_duration s = datetime_sub (fajr_dt s) (maghrib_dt s)
            /\ 0 < to_microseconds (night_duration s) < US_PER_DAY.
Proof.
  apply (night_duration_within_a_day 739558 scenario_timings
           (mk_time 18 0 0 0) (mk_time 19 30 0 0) (mk_time 4 30 0 0)).
  - unfold valid_today, MAXORDINAL; lia.
  - eexists; split; [vm_compute; reflexivity | vm_compute; reflexivity].
  - eexists; split; [vm_compute; reflexivity | vm_compute; reflexivity].
  - eexists; split; [vm_compute; reflexivity | vm_compute; reflexivity].
  - vm_compute; reflexivity.
Defined.

(** C3. For three valid HH:MM values the night duration is positive and the
    instants are strictly ordered: Maghrib, then the Islamic midnight, then
    the sleep suggestion, then Fajr of the next day. *)
Theorem schedule_instants_ordered (today : Z) (timings : pyval) (tm ti tf : pytime) :
  valid_today today ->
  has_time timings "Maghrib" tm -> has_time timings "Isha" ti ->
  has_time timings "Fajr" tf ->
  exists s, calculate_schedule today timings = Return (Some s)
            /\ 0 < to_microseconds (night_duration s)
            /\ instant (maghrib_dt s) < instant (midnight_dt s)
            /\ instant (midnight_dt s) < instant (sleep_dt s)
            /\ instant (sleep_dt s) < instant (fajr_dt s).
Proof.
  intros Ht Hm Hi Hf. exists (schedule_of today tm ti tf).
  split; [by apply calculate_schedule_ok |].
  pose proof (has_time_valid _ _ _ Hm) as Vm.
  pose proof (has_time_valid _ _ _ Hf) as Vf.
  pose proof (night_minutes_range _ _ Vm Vf) as HD.
  rewrite night_duration_of by assumption.
  unfold schedule_of; simpl. rewrite !instant_of_us.
  rewrite !instant_combine by assumption.
  unfold night_minutes in *. lia.
Qed.

Lemma schedule_instants_ordered_witness :
  exists s, calculate_schedule 739558 scenario_timings = Return (Some s)
            /\ 0 < to_microseconds (night_duration s)
            /\ instant (maghrib_dt s) < instant (midnight_dt s)
            /\ instant (midnight_dt s) < instant (sleep_dt s)
            /\ instant (sleep_dt s) < instant (fajr_dt s).
Proof.
  apply (schedule_instants_ordered 739558 scenario_timings
           (mk_time 18 0 0 0) (mk_time 19 30 0 0) (mk_time 4 30 0 0)).
  - unfold valid_today, MAXORDINAL; lia.
  - eexists; split; [vm_compute; reflexivity | vm_compute; reflexivity].
  - eexists; split; [vm_compute; reflexivity | vm_compute; reflexivity].
  - eexists; split; [vm_compute; reflexivity | vm_compute; reflexivity].
Defined.

Lemma format_schedule_nonempty (s : schedule) : format_schedule s <> ∅.
Proof.
  intros H. assert (E : format_schedule s !! "Maghrib" = None) by (rewrite H; done).
  unfold format_schedule in E. rewrite lookup_insert_eq in E. discriminate.
Qed.

(** C9. Whenever the three values parse, [calculate_times] returns a
    non-empty dict and the night duration is strictly positive; no guard
    rejects a Fajr whose clock value is not earlier than Maghrib's, and the
    night duration is then 24 hours or more. *)
Theorem calculate_times_total_on_parsed (today : Z) (timings : pyval) (tm ti tf : pytime) :
  valid_today today ->
  has_time timings "Maghrib" tm -> has_time timings "Isha" ti ->
  has_time timings "Fajr" tf ->
  exists s, calculate_schedule today timings = Return (Some s)
            /\ calculate_times today timings = Return (format_schedule s)
            /\ format_schedule s <> ∅
            /\ 0 < to_microseconds (night_duration s)
            /\ (clock_minutes tm <= clock_minutes tf ->
                US_PER_DAY <= to_microseconds (night_duration s)).
Proof.
  intros Ht Hm Hi Hf. exists (schedule_of today tm ti tf).
  pose proof (calculate_schedule_ok _ _ _ _ _ Ht Hm Hi Hf) as E.
  split; [exact E |].
  split; [unfold calculate_times; rewrite E; reflexivity |].
  split; [apply format_schedule_nonempty |].
  pose proof (has_time_valid _ _ _ Hm) as Vm.
  pose proof (has_time_valid _ _ _ Hf) as Vf.
  pose proof (night_minutes_range _ _ Vm Vf) as HD.
  rewrite night_duration_of by assumption.
  unfold night_minutes, US_PER_DAY in *. lia.
Qed.

Lemma calculate_times_total_on_parsed_witness :
  exists s, calculate_schedule 739558 late_fajr_timings = Return (Some s)
            /\ calculate_times 739558 late_fajr_timings = Return (format_schedule s)
            /\ format_schedule s <> ∅
            /\ 0 < to_microseconds (night_duration s)
            /\ (clock_minutes (mk_time 18 0 0 0) <= clock_minutes (mk_time 18 0 0 0) ->
                US_PER_DAY <= to_microseconds (night_duration s)).
Proof.
  apply (calculate_times_total_on_parsed 739558 late_fajr_timings
           (mk_time 18 0 0 0) (mk_time 19 30 0 0) (mk_time 18 0 0 0)).
  - unfold valid_today, MAXORDINAL; lia.
  - eexists; split; [vm_compute; reflexivity | vm_compute; reflexivity].
  - eexists; split; [vm_compute; reflexivity | vm_compute; reflexivity].
  - eexists; split; [vm_compute; reflexivity | vm_compute; reflexivity].
Defined.

(** The dict of a successful call: the echoed Isha entry on top of entries
    that are computed from Maghrib and Fajr alone. *)
Lemma format_schedule_isha (s : schedule) :
  format_schedule s =
  <["Isha" := strftime_HM (isha_dt s)]>
    ({[ "Maghrib" := strftime_HM (maghrib_dt s);
        "Fajr" := strftime_HM (fajr_dt s);
        "Night_Duration" := before_dot (timedelta_str (night_duration s));
        "Islamic_Midnight" := strftime_HM (midnight_dt s);
        "Wake_Up_Suggestion" := strftime_HM (wake_up_dt s);
        "Sleep_Suggestion" := strftime_HM (sleep_dt s) ]} : gmap string string).
Proof. unfold format_schedule. apply insert_insert_ne. discriminate. Qed.

Lemma has_time_agree (d1 d2 : gmap string pyval) (key : string) (t : pytime) :
  d1 !! key = d2 !! key -> has_time (PyDict d1) key t -> has_time (PyDict d2) key t.
Proof. intros E (v & Hg & Hp). exists v. simpl in *. rewrite <- E. auto. Qed.

(** C10. Two mappings that parse and differ only in the Isha value give
    dicts that agree on every key other than the echoed Isha. *)
Theorem isha_only_echoed (today today' : Z) (d1 d2 : gmap string pyval)
    (tm ti1 ti2 tf : pytime) :
  valid_today today -> valid_today today' ->
  (forall key : string, key <> "Isha" -> d1 !! key = d2 !! key) ->
  has_time (PyDict d1) "Maghrib" tm -> has_time (PyDict d1) "Isha" ti1 ->
  has_time (PyDict d1) "Fajr" tf -> has_time (PyDict d2) "Isha" ti2 ->
  exists r1 r2 : gmap string string,
    calculate_times today (PyDict d1) = Return r1
    /\ calculate_times today' (PyDict d2) = Return r2
    /\ forall field : string, field <> "Isha" -> r1 !! field = r2 !! field.
Proof.
  intros Ht Ht' Hagree Hm Hi1 Hf Hi2.
  assert (Hm2 : has_time (PyDict d2) "Maghrib" tm)
    by (eapply has_time_agree; [apply Hagree; discriminate | exact Hm]).
  assert (Hf2 : has_time (PyDict d2) "Fajr" tf)
    by (eapply has_time_agree; [apply Hagree; discriminate | exact Hf]).
  exists (format_schedule (schedule_of 1 tm ti1 tf)),
         (format_schedule (schedule_of 1 tm ti2 tf)).
  split; [by apply calculate_times_ok |].
  split; [by apply calculate_times_ok |].
  intros field Hne. rewrite !format_schedule_isha.
  etrans; [apply lookup_insert_ne; congruence |].
  symmetry. etrans; [apply lookup_insert_ne; congruence |].
  reflexivity.
Qed.

Lemma isha_only_echoed_witness :
  exists r1 r2 : gmap string string,
    calculate_times 739558 (PyDict (<["Isha" := PyStr "19:30"]> scenario_other_isha)) = Return r1
    /\ calculate_times 739559 (PyDict scenario_other_isha) = Return r2
    /\ forall field : string, field <> "Isha" -> r1 !! field = r2 !! field.
Proof.
  apply (isha_only_echoed 739558 739559 _ _
           (mk_time 18 0 0 0) (mk_time 19 30 0 0) (mk_time 21 5 0 0) (mk_time 4 30 0 0)).
  - unfold valid_today, MAXORDINAL; lia.
  - unfold valid_today, MAXORDINAL; lia.
  - intros key Hne. apply lookup_insert_ne. congruence.
  - eexists; split; [vm_compute; reflexivity | vm_compute; reflexivity].
  - eexists; split; [vm_compute; reflexivity | vm_compute; reflexivity].
  - eexists; split; [vm_compute; reflexivity | vm_compute; reflexivity].
  - eexists; split; [vm_compute; reflexivity | vm_compute; reflexivity].
Defined.

(** ** The failure path of [calculate_times] *)

Lemma not_parses_ValueError (s : string) :
  ~ parses s -> strptime_HM (PyStr s) = Raise ValueError.
Proof.
  intros H. destruct (strptime_HM (PyStr s)) as [t | e] eqn:E.
  - exfalso. apply H. by exists t.
  - f_equal. eapply strptime_HM_str_fail, E.
Qed.

Lemma parse_timings_missing (today tomorrow : Z) (d : gmap string pyval) :
  d !! "Maghrib" = None \/ d !! "Isha" = None \/ d !! "Fajr" = None ->
  parse_timings today tomorrow (PyDict d) = Raise KeyError.
Proof.
  intros H. unfold parse_timings; simpl.
  destruct (d !! "Maghrib"); simpl; [| reflexivity].
  destruct (d !! "Isha"); simpl; [| reflexivity].
  destruct (d !! "Fajr"); simpl; [| reflexivity].
  destruct H as [H | [H | H]]; discriminate.
Qed.

Lemma parse_timings_unparsable (today tomorrow : Z) (d : gmap string pyval)
    (sm si sf : string) :
  d !! "Maghrib" = Some (PyStr sm) -> d !! "Isha" = Some (PyStr si) ->
  d !! "Fajr" = Some (PyStr sf) ->
  ~ parses sm \/ ~ parses si \/ ~ parses sf ->
  parse_timings today tomorrow (PyDict d) = Raise ValueError.
Proof.
  intros Em Ei Ef H. unfold parse_timings. cbn [py_getitem].
  rewrite Em, Ei, Ef. cbn [mbind result_bind].
  destruct (strptime_HM (PyStr sm)) as [t1 | e1] eqn:E1.
  2:{ by rewrite (strptime_HM_str_fail _ _ E1). }
  destruct (strptime_HM (PyStr si)) as [t2 | e2] eqn:E2.
  2:{ by rewrite (strptime_HM_str_fail _ _ E2). }
  destruct (strptime_HM (PyStr sf)) as [t3 | e3] eqn:E3.
  2:{ by rewrite (strptime_HM_str_fail _ _ E3). }
  exfalso. destruct H as [H | [H | H]]; apply H; eexists; eassumption.
Qed.

Lemma calculate_times_caught (today : Z) (timings : pyval) (e : exn) :
  valid_today today ->
  parse_timings today (today + 1) timings = Raise e ->
  e = KeyError \/ e = ValueError ->
  calculate_times today timings = Return ∅.
Proof.
  intros Ht E He. unfold calculate_times, calculate_schedule, date_add_days.
  unfold valid_today in Ht.
  replace ((0 <? today + 1) && (today + 1 <=? MAXORDINAL)) with true
    by (symmetry; apply andb_true_intro; split;
        [apply Z.ltb_lt | apply Z.leb_le]; lia).
  cbn [mbind result_bind]. rewrite E. destruct He as [-> | ->]; reflexivity.
Qed.

(** X20. A mapping from which Maghrib, Isha or Fajr is absent, or whose
    three values are strings of which one is not a valid HH:MM value, makes
    [calculate_times] return the empty dict; no exception leaves the
    function.  In particular a mapping without Fajr gives the empty dict. *)
Theorem calculate_times_no_result (today : Z) (d : gmap string pyval) :
  valid_today today ->
  (d !! "Maghrib" = None \/ d !! "Isha" = None \/ d !! "Fajr" = None)
  \/ (exists sm si sf : string,
        d !! "Maghrib" = Some (PyStr sm) /\ d !! "Isha" = Some (PyStr si)
        /\ d !! "Fajr" = Some (PyStr sf)
        /\ (~ parses sm \/ ~ parses si \/ ~ parses sf)) ->
  calculate_times today (PyDict d) = Return ∅.
Proof.
  intros Ht [Hmiss | (sm & si & sf & Em & Ei & Ef & Hbad)].
  - eapply calculate_times_caught; [exact Ht | | by left].
    by apply parse_timings_missing.
  - eapply calculate_times_caught; [exact Ht | | by right].
    by eapply parse_timings_unparsable.
Qed.

Lemma calculate_times_no_result_witness :
  calculate_times 739558 (PyDict timings_without_fajr) = Return ∅.
Proof.
  apply (calculate_times_no_result 739558 timings_without_fajr).
  - unfold valid_today, MAXORDINAL; lia.
  - left. right. right. vm_compute. reflexivity.
Defined.

(** The same failure path on a string that is not HH:MM. *)
Example calculate_times_zone_suffix :
  calculate_times 739558
    (PyDict {[ "Maghrib" := PyStr "18:00 (EET)"; "Isha" := PyStr "19:30";
               "Fajr" := PyStr "04:30" ]}) = Return ∅.
Proof. vm_compute. reflexivity. Qed.

(** C4 (the code at the failing input). A Maghrib value that is JSON null
    does not parse as HH:MM, and [calculate_times] does not return the
    empty dict for it: [strptime] raises [TypeError], which the [except]
    clause does not list, and the exception leaves the function.  The
    mapping reaches [calculate_times] as the provider delivers it, and the
    exception leaves [fetch_and_send_times] before any message is sent. *)
Theorem calculate_times_null_value :
  calculate_times 739558 (PyDict null_maghrib_timings) = Raise TypeError
  /\ calculate_times 739558 (PyDict null_maghrib_timings) <> Return ∅
  /\ (forall t, strptime_HM PyNone <> Return t)
  /\ get_prayer_times (answering (timings_reply null_maghrib_timings)) "Cairo" "Egypt"
     = Return (PyDict null_maghrib_timings)
  /\ fetch_and_send_times (answering (timings_reply null_maghrib_timings)) "Cairo" "Egypt"
       egypt_pending
     = (Raise TypeError, egypt_pending, []).
Proof.
  split; [vm_compute; reflexivity |].
  split; [vm_compute; discriminate |].
  split; [intros t; vm_compute; discriminate |].
  split; vm_compute; reflexivity.
Qed.

(** The same on a number, and on a null Isha next to an unparsable Fajr:
    the values are read in the order Maghrib, Isha, Fajr. *)
Example calculate_times_non_string :
  calculate_times 739558
    (PyDict {[ "Maghrib" := PyInt 1800; "Isha" := PyStr "19:30";
               "Fajr" := PyStr "04:30" ]}) = Raise TypeError
  /\ calculate_times 739558
       (PyDict {[ "Maghrib" := PyStr "18:00"; "Isha" := PyNone;
                  "Fajr" := PyStr "dawn" ]}) = Raise TypeError.
Proof. split; vm_compute; reflexivity. Qed.

(** Digits of other scripts are digits to [strptime]. *)
Example strptime_arabic_digits :
  strptime_HM (PyStr "٨:٥") = Return (mk_time 8 5 0 0)
  /\ strptime_HM (PyStr "1٨:٠٥") = Raise ValueError.
Proof. split; vm_compute; reflexivity. Qed.

(** ** The handlers: what a turn leaves behind *)

(** [fetch_and_send_times] never writes to the store. *)
Lemma fetch_and_send_times_store (w : world) (c k : string) (s : store) :
  store_after (fetch_and_send_times w c k s) = s.
Proof.
  unfold fetch_and_send_times, store_after, mbind, handler_bind, lift, send.
  destruct (get_prayer_times w c k) as [timings | e]; [| reflexivity].
  destruct (negb (truthy timings)); [reflexivity |].
  destruct (calculate_times (date_at_calc w) timings) as [results | e]; [| reflexivity].
  destruct (bool_decide (results = ∅)); reflexivity.
Qed.

(** The store [handle_message] leaves, whatever the provider does. *)
Lemma handle_message_store (w : world) (user : Z) (message_text : string) (s : store) :
  store_after (handle_message w user message_text s) =
  match users_awaiting_city s !! user with
  | Some c => set_location user (strip message_text) c (remove_awaiting user s)
  | None => s
  end.
Proof.
  unfold handle_message, store_after.
  unfold mbind at 1. unfold handler_bind, get_store.
  destruct (users_awaiting_city s !! user) as [c |] eqn:E; [| reflexivity].
  unfold mbind, handler_bind, put_store, get_store, send.
  pose proof (fetch_and_send_times_store w (strip message_text) c
                (set_location user (strip message_text) c (remove_awaiting user s))) as F.
  unfold store_after in F.
  destruct (fetch_and_send_times _ _ _ _) as [[r s'] out]. simpl in *.
  subst s'. reflexivity.
Qed.

(** The text is stripped before it is saved: a message with a leading
    blank is not saved as sent. *)
Lemma saved_city_is_stripped :
  ~ saves_sent_text offline 7 " Cairo" "Egypt" egypt_pending.
Proof.
  unfold saves_sent_text. intros H.
  destruct (H eq_refl) as [H1 _]. vm_compute in H1. discriminate.
Qed.

(** C5 (amended). When a user who is pending a city reply sends a text, the
    handler removes the user from the pending map and then writes the
    location, in this order and with no other write: afterwards the
    location map holds for the user the sent text without its leading and
    trailing whitespace as city and the pending country as country, the
    pending map no longer contains the user, and the user is not in both
    maps. *)
Theorem handle_message_saves_location (w : world) (user : Z) (message_text c : string)
    (s : store) :
  users_awaiting_city s !! user = Some c ->
  let popped := remove_awaiting user s in
  let s' := store_after (handle_message w user message_text s) in
  users_awaiting_city popped !! user = None
  /\ user_locations popped = user_locations s
  /\ s' = set_location user (strip message_text) c popped
  /\ history s' = (history s ++ [PopAwaiting user;
                                 SetLocation user (mk_location (strip message_text) c)])%list
  /\ user_locations s' !! user = Some (mk_location (strip message_text) c)
  /\ users_awaiting_city s' !! user = None
  /\ ~ (is_Some (user_locations s' !! user) /\ is_Some (users_awaiting_city s' !! user)).
Proof.
  intros E. cbv zeta. rewrite handle_message_store, E. simpl.
  rewrite lookup_delete_eq, lookup_insert_eq, <- app_assoc.
  repeat split; try reflexivity.
  intros [_ [x Hx]]. discriminate.
Qed.

Lemma handle_message_saves_location_witness :
  let popped := remove_awaiting 7 egypt_pending in
  let s' := store_after (handle_message offline 7 "  القاهرة " egypt_pending) in
  users_awaiting_city popped !! 7 = None
  /\ user_locations popped = user_locations egypt_pending
  /\ s' = set_location 7 (strip "  القاهرة ") "Egypt" popped
  /\ history s' = (history egypt_pending
                   ++ [PopAwaiting 7;
                       SetLocation 7 (mk_location (strip "  القاهرة ") "Egypt")])%list
  /\ user_locations s' !! 7 = Some (mk_location (strip "  القاهرة ") "Egypt")
  /\ users_awaiting_city s' !! 7 = None
  /\ ~ (is_Some (user_locations s' !! 7) /\ is_Some (users_awaiting_city s' !! 7)).
Proof.
  apply (handle_message_saves_location offline 7 "  القاهرة " "Egypt" egypt_pending).
  vm_compute. reflexivity.
Defined.

(** The scenario of the specification: Egypt, then Cairo. *)
Example egypt_then_cairo (w : world) :
  let s1 := store_after (button_callback 7 "country_Egypt" (mk_store ∅ ∅ [])) in
  let s2 := store_after (handle_message w 7 "Cairo" s1) in
  s1 = mk_store ∅ {[ 7 := "Egypt" ]} [SetAwaiting 7 "Egypt"]
  /\ s2 = mk_store {[ 7 := mk_location "Cairo" "Egypt" ]} ∅
            [SetAwaiting 7 "Egypt"; PopAwaiting 7;
             SetLocation 7 (mk_location "Cairo" "Egypt")].
Proof.
  cbv zeta. split; [vm_compute; reflexivity |].
  rewrite handle_message_store. vm_compute. reflexivity.
Qed.

(** Stripping works on characters, not on bytes: a name whose encoding ends
    in a byte that would be a blank on its own is kept whole, and the
    blanks of other scripts are removed. *)
Example strip_city_names :
  strip "الخرطوم" = "الخرطوم"
  /\ strip "  القاهرة " = "القاهرة"
  /\ strip " Cairo　" = "Cairo"
  /\ strip "São Paulo" = "São Paulo"
  /\ strip "à" = "à"
  /\ strip " 	 " = "".
Proof. repeat split; vm_compute; reflexivity. Qed.

(** ** The provider's failure signal *)

(** Only 4xx and 5xx count as bad status: a 3xx answer that carries timings
    is passed on.  And a [data] entry that is not an object is asked for
    [.get], which raises past the [except] clause. *)
Lemma provider_not_always_unavailable : ~ unavailable_on_every_failure.
Proof.
  intros H. specialize (H multiple_choices "Cairo" "Egypt").
  assert (F : fails_as_specified multiple_choices) by (left; lia).
  specialize (H F). vm_compute in H. discriminate.
Qed.

Example provider_raises_on_text_data :
  fails_as_specified data_is_text
  /\ get_prayer_times (answering data_is_text) "Cairo" "Egypt" = Raise AttributeError.
Proof. split; [right; vm_compute; reflexivity | vm_compute; reflexivity]. Qed.

Lemma request_timings_fails (reply : http_reply) :
  provider_fails reply ->
  request_timings reply = Raise RequestException \/ request_timings reply = Return PyNone.
Proof.
  intros H. destruct H as [| status body Hs | status | status data Hd
                           | status d Hd | status d d' Hd Ht]; simpl.
  - by left.
  - replace ((400 <=? status) && (status <? 600)) with true; [by left |].
    symmetry. apply andb_true_intro. split; [apply Z.leb_le | apply Z.ltb_lt]; lia.
  - destruct ((400 <=? status) && (status <? 600)); by left.
  - destruct ((400 <=? status) && (status <? 600)); [by left |].
    rewrite Hd. by right.
  - destruct ((400 <=? status) && (status <? 600)); [by left |].
    destruct (bool_decide (d = ∅)); simpl; [by right |].
    unfold absent_or_falsy in Hd.
    destruct (d !! "data") as [v |]; simpl; [rewrite Hd |]; by right.
  - destruct ((400 <=? status) && (status <? 600)); [by left |].
    destruct (bool_decide (d = ∅)); simpl; [by right |].
    rewrite Hd; simpl.
    destruct (bool_decide (d' = ∅)); simpl; [by right |].
    unfold absent_or_falsy in Ht.
    destruct (d' !! "timings") as [v |]; simpl; [rewrite Ht |]; by right.
Qed.

Lemma get_prayer_times_unavailable (w : world) (c k : string) :
  provider_fails (http_get w (mk_request (date_at_fetch w) c k 5)) ->
  get_prayer_times w c k = Return PyNone.
Proof.
  intros H. unfold get_prayer_times.
  destruct (request_timings_fails _ H) as [-> | ->]; reflexivity.
Qed.

Lemma fetch_and_send_times_unavailable (w : world) (c k : string) (s : store) :
  get_prayer_times w c k = Return PyNone ->
  fetch_and_send_times w c k s = (Return tt, s, [ReplyText (MsgUnavailable c k)]).
Proof.
  intros H. unfold fetch_and_send_times, mbind, handler_bind, lift.
  rewrite H. reflexivity.
Qed.

(** C6 (amended). When the request fails, the status is 4xx or 5xx, the
    body is not JSON or is an empty value, or the decoded object has no
    (or an empty) [data] entry or its [data] object has no (or an empty)
    [timings] entry, [get_prayer_times] returns the unavailable signal; and
    on that signal [fetch_and_send_times] sends the could-not-find message
    and returns with both maps of the store unchanged. *)
Theorem unavailable_signal_and_message (w : world) (c k : string) (s : store) :
  provider_fails (http_get w (mk_request (date_at_fetch w) c k 5)) ->
  get_prayer_times w c k = Return PyNone
  /\ outcome (fetch_and_send_times w c k s) = Return tt
  /\ sent (fetch_and_send_times w c k s) = [ReplyText (MsgUnavailable c k)]
  /\ user_locations (store_after (fetch_and_send_times w c k s)) = user_locations s
  /\ users_awaiting_city (store_after (fetch_and_send_times w c k s))
     = users_awaiting_city s.
Proof.
  intros H. pose proof (get_prayer_times_unavailable _ _ _ H) as E.
  rewrite (fetch_and_send_times_unavailable _ _ _ s E). by repeat split.
Qed.

Lemma unavailable_signal_and_message_witness :
  let w := answering empty_body in
  get_prayer_times w "Cairo" "Egypt" = Return PyNone
  /\ outcome (fetch_and_send_times w "Cairo" "Egypt" egypt_pending) = Return tt
  /\ sent (fetch_and_send_times w "Cairo" "Egypt" egypt_pending)
     = [ReplyText (MsgUnavailable "Cairo" "Egypt")]
  /\ user_locations (store_after (fetch_and_send_times w "Cairo" "Egypt" egypt_pending))
     = user_locations egypt_pending
  /\ users_awaiting_city (store_after (fetch_and_send_times w "Cairo" "Egypt" egypt_pending))
     = users_awaiting_city egypt_pending.
Proof.
  apply (unavailable_signal_and_message (answering empty_body) "Cairo" "Egypt" egypt_pending).
  apply fails_not_json.
Defined.

(** ** Replies *)

Lemma prefix_split (p s : string) :
  String.prefix p s = true -> exists r, s = (p ++ r)%string.
Proof.
  revert s. induction p as [| a p IH]; intros s H; simpl in *.
  - by exists s.
  - destruct s as [| b s]; [discriminate |]. simpl in H.
    destruct (ascii_dec a b) as [-> |]; [| discriminate].
    destruct (IH s H) as [r ->]. by exists r.
Qed.

Lemma prefix_append (p r : string) : String.prefix p (p ++ r) = true.
Proof.
  induction p as [| a p IH]; simpl.
  - by destruct r.
  - destruct (ascii_dec a a); [exact IH | congruence].
Qed.

Lemma after_underscore_country (data : string) :
  String.prefix "country_" data = true ->
  exists c, data = ("country_" ++ c)%string /\ after_underscore data = Return c.
Proof.
  intros H. destruct (prefix_split _ _ H) as [r ->]. by exists r.
Qed.

(** A country button: the query is answered, the country is noted and the
    message is edited. *)
Lemma button_callback_country (user : Z) (c : string) (s : store) :
  button_callback user ("country_" ++ c) s =
  (Return tt, set_awaiting user c s,
   [AnswerCallback; EditMessageText (MsgCountryChosen c)]).
Proof.
  unfold button_callback, mbind, handler_bind, send.
  rewrite prefix_append. reflexivity.
Qed.

(** Any other payload: the query is answered and nothing else happens. *)
Lemma button_callback_other (user : Z) (data : string) (s : store) :
  String.prefix "country_" data = false ->
  button_callback user data s = (Return tt, s, [AnswerCallback]).
Proof.
  intros H. unfold button_callback, mbind, handler_bind, send. rewrite H. reflexivity.
Qed.

Lemma replied_bind_first {A B : Type} (m : handler A) (k : A -> handler B) (s : store) :
  replied (m s) = true -> replied ((m ≫= k) s) = true.
Proof.
  unfold replied, sent, mbind, handler_bind.
  destruct (m s) as [[[a | e] s'] out]; simpl; [| auto].
  destruct (k a s') as [[r s''] out']; simpl.
  intros H. rewrite existsb_app, H. reflexivity.
Qed.

Lemma bind_get_store {B : Type} (k : store -> handler B) (s : store) :
  (get_store ≫= k) s = k s s.
Proof.
  unfold mbind, handler_bind, get_store. by destruct (k s s) as [[r s'] out].
Qed.

Lemma bind_put_store {B : Type} (s' : store) (k : unit -> handler B) (s : store) :
  (put_store s' ≫= k) s = k tt s'.
Proof.
  unfold mbind, handler_bind, put_store. by destruct (k tt s') as [[r s''] out].
Qed.

Lemma times_command_replied (w : world) (user : Z) (s : store) :
  replied (times_command w user s) = true.
Proof.
  unfold times_command. rewrite bind_get_store.
  destruct (user_locations s !! user) as [loc |]; [| reflexivity].
  by apply replied_bind_first.
Qed.

Lemma handle_message_replied (w : world) (user : Z) (message_text : string) (s : store) :
  replied (handle_message w user message_text s) = true.
Proof.
  unfold handle_message. rewrite bind_get_store.
  destruct (users_awaiting_city s !! user) as [c |]; [| reflexivity].
  rewrite bind_put_store, bind_get_store, bind_put_store.
  by apply replied_bind_first.
Qed.

(** A button payload that does not start with "country_" is acknowledged
    and gets no text and no edit. *)
Lemma button_without_reply : ~ always_replies.
Proof.
  intros H. specialize (H [] offline 7 (ButtonPress "cancel") (mk_store ∅ ∅ [])).
  vm_compute in H. discriminate.
Qed.

(** C7 (amended). The command handlers and the text handler reply on every
    event; the button handler replies, by editing the message, exactly when
    the payload starts with "country_", and for any other payload it
    answers the callback query, sends nothing and leaves the store as it
    was. *)
Theorem handlers_reply (COUNTRIES : list string) (w : world) (user : Z) (ev : event)
    (s : store) :
  replied (handle_event COUNTRIES w user ev s) =
  match ev with
  | ButtonPress data => String.prefix "country_" data
  | _ => true
  end
  /\ match ev with
     | ButtonPress data =>
         String.prefix "country_" data = false ->
         handle_event COUNTRIES w user ev s = (Return tt, s, [AnswerCallback])
     | _ => True
     end.
Proof.
  destruct ev as [[| |] | data | message_text]; simpl;
    try (split; [reflexivity || apply times_command_replied
                 || apply handle_message_replied | exact I]).
  split; [| apply button_callback_other].
  destruct (String.prefix "country_" data) eqn:E.
  - destruct (after_underscore_country _ E) as (c & -> & _).
    rewrite button_callback_country. reflexivity.
  - rewrite (button_callback_other _ _ _ E). reflexivity.
Qed.

(** The payloads the bot itself offers all start with "country_". *)
Lemma keyboard_rows_payloads (countries : list string) (row : list button) (b : button) :
  row ∈ keyboard_rows countries -> b ∈ row ->
  String.prefix "country_" (callback_data b) = true.
Proof.
  revert row b.
  assert (P : forall c : string,
             String.prefix "country_" (callback_data (mk_button c ("country_" ++ c))) = true)
    by (intros c; apply prefix_append).
  assert (Q : forall (l : list string) (b : button),
             b ∈ map (fun c : string => mk_button c ("country_" ++ c)) l ->
             String.prefix "country_" (callback_data b) = true).
  { intros l b Hb. apply list_elem_of_fmap in Hb as (c & -> & _). apply P. }
  assert (G : forall (n : nat) (l : list string), (length l <= n)%nat ->
                forall (row : list button) (b : button),
                  row ∈ keyboard_rows l -> b ∈ row ->
                  String.prefix "country_" (callback_data b) = true).
  { induction n as [| n IH]; intros l Hl row b Hrow Hb.
    - destruct l; [by apply elem_of_nil in Hrow | simpl in Hl; lia].
    - destruct l as [| c1 [| c2 [| c3 rest]]].
      + by apply elem_of_nil in Hrow.
      + apply list_elem_of_singleton in Hrow as ->. by apply (Q [c1]).
      + apply list_elem_of_singleton in Hrow as ->. by apply (Q [c1; c2]).
      + simpl in Hrow. apply elem_of_cons in Hrow as [-> | Hrow].
        * by apply (Q [c1; c2; c3]).
        * eapply (IH rest); [simpl in Hl; lia | exact Hrow | exact Hb]. }
  intros row b. by apply (G (length countries)).
Qed.

(** ** Start-up *)

(** With an empty environment start-up goes on: a library that accepts
    only the token written in the source is given that token, builds the
    application and polls. *)
Lemma default_token_used : ~ fails_without_token.
Proof.
  intros H. destruct (H default_only ∅ (lookup_empty _)) as [e He].
  vm_compute in He. discriminate.
Qed.

(** C8 (amended). The token comes from the environment variable when it is
    set.  When the variable is absent start-up does not fail for it: the
    module runs with the token written in the source, exactly as it does
    with the variable set to that token; when the library builds an
    application from that token the five handlers are added, the progress
    line is printed and polling starts, and otherwise the library's own
    exception ends start-up. *)
Theorem main_token (lib : bot_library) (environ : gmap string string) :
  match environ !! "TELEGRAM_BOT_TOKEN" with
  | Some token => run_module lib environ = main lib token
  | None =>
      run_module lib environ
      = run_module lib (<["TELEGRAM_BOT_TOKEN" := DEFAULT_TOKEN]> environ)
      /\ match build lib DEFAULT_TOKEN with
         | Return app =>
             run_module lib environ
             = (["Bot is running... Press Ctrl-C to stop."],
                run_polling lib (with_handlers lib app))
         | Raise e => run_module lib environ = ([], Raise e)
         end
  end.
Proof.
  unfold run_module, BOT_TOKEN.
  destruct (environ !! "TELEGRAM_BOT_TOKEN") as [token |] eqn:E; [reflexivity |].
  rewrite lookup_insert_eq. split; [reflexivity |].
  unfold main. change (default DEFAULT_TOKEN None) with DEFAULT_TOKEN.
  destruct (build lib DEFAULT_TOKEN); reflexivity.
Qed.

(** The token of the environment reaches the library: one that accepts only
    the token of the source refuses another. *)
Example configured_token_used :
  run_module default_only {[ "TELEGRAM_BOT_TOKEN" := "123:abc" ]} = ([], Raise InvalidToken)
  /\ run_module default_only ∅
     = (["Bot is running... Press Ctrl-C to stop."], Return tt).
Proof. split; vm_compute; reflexivity. Qed.

(** * Further properties of the code *)

(** ** [calculate_times] on arbitrary input *)

Lemma py_getitem_exn (v : pyval) (key : string) (e : exn) :
  py_getitem v key = Raise e -> e = KeyError \/ e = TypeError.
Proof.
  destruct v; simpl; try (intros [= <-]; by right).
  destruct (d !! key); [discriminate | intros [= <-]; by left].
Qed.

Lemma strptime_HM_exn (v : pyval) (e : exn) :
  strptime_HM v = Raise e -> e = ValueError \/ e = TypeError.
Proof.
  destruct v; try (simpl; intros [= <-]; by right).
  intros H. left. eapply strptime_HM_str_fail, H.
Qed.

(** Either the three values parse, or the [try] block raises one and the
    same exception on every date. *)
Lemma parse_timings_shape (timings : pyval) :
  (exists tm ti tf, has_time timings "Maghrib" tm /\ has_time timings "Isha" ti
                    /\ has_time timings "Fajr" tf)
  \/ (exists e, (e = KeyError \/ e = ValueError \/ e = TypeError)
                /\ forall d d', parse_timings d d' timings = Raise e).
Proof.
  unfold parse_timings, has_time.
  destruct (py_getitem timings "Maghrib") as [vm | e] eqn:Gm.
  2:{ right. exists e. split; [destruct (py_getitem_exn _ _ _ Gm); auto | reflexivity]. }
  destruct (py_getitem timings "Isha") as [vi | e] eqn:Gi.
  2:{ right. exists e. split; [destruct (py_getitem_exn _ _ _ Gi); auto | reflexivity]. }
  destruct (py_getitem timings "Fajr") as [vf | e] eqn:Gf.
  2:{ right. exists e. split; [destruct (py_getitem_exn _ _ _ Gf); auto | reflexivity]. }
  destruct (strptime_HM vm) as [tm | e] eqn:Pm.
  2:{ right. exists e. split; [destruct (strptime_HM_exn _ _ Pm); auto |].
      intros d d'; simpl. by rewrite Pm. }
  destruct (strptime_HM vi) as [ti | e] eqn:Pi.
  2:{ right. exists e. split; [destruct (strptime_HM_exn _ _ Pi); auto |].
      intros d d'; simpl. by rewrite Pm, Pi. }
  destruct (strptime_HM vf) as [tf | e] eqn:Pf.
  2:{ right. exists e. split; [destruct (strptime_HM_exn _ _ Pf); auto |].
      intros d d'; simpl. by rewrite Pm, Pi, Pf. }
  left. exists tm, ti, tf. eauto 10.
Qed.

Lemma date_add_days_valid (today : Z) :
  valid_today today -> date_add_days today 1 = Return (today + 1).
Proof.
  unfold valid_today, date_add_days. intros H.
  replace ((0 <? today + 1) && (today + 1 <=? MAXORDINAL)) with true; [reflexivity |].
  symmetry. apply andb_true_intro.
  split; [apply Z.ltb_lt | apply Z.leb_le]; unfold MAXORDINAL in *; lia.
Qed.

Lemma date_add_days_exn (d n : Z) (e : exn) :
  date_add_days d n = Raise e -> e = OverflowError.
Proof.
  unfold date_add_days. destruct ((0 <? d + n) && (d + n <=? MAXORDINAL)); congruence.
Qed.

Lemma datetime_add_exn (a : datetime) (d : timedelta) (e : exn) :
  datetime_add a d = Raise e -> e = OverflowError.
Proof.
  unfold datetime_add.
  destruct ((0 <? _) && (_ <=? MAXORDINAL)); congruence.
Qed.

Lemma derive_schedule_exn (m i f : datetime) (e : exn) :
  derive_schedule m i f = Raise e -> e = OverflowError.
Proof.
  unfold derive_schedule.
  destruct (datetime_add m _) as [midnight | e1] eqn:E1; simpl.
  - unfold datetime_sub_delta.
    destruct (datetime_add f _) as [sleep | e2] eqn:E2; simpl; [discriminate |].
    intros [= <-]. eapply datetime_add_exn, E2.
  - intros [= <-]. eapply datetime_add_exn, E1.
Qed.

Lemma calculate_times_uncaught (today : Z) (timings : pyval) :
  valid_today today ->
  parse_timings today (today + 1) timings = Raise TypeError ->
  calculate_times today timings = Raise TypeError.
Proof.
  intros Ht E. unfold calculate_times, calculate_schedule.
  rewrite (date_add_days_valid _ Ht). cbn [mbind result_bind]. rewrite E. reflexivity.
Qed.

(** The three outcomes of [calculate_times] on a date with a following day. *)
Lemma calculate_times_outcomes (timings : pyval) :
  (exists tm ti tf, forall today, valid_today today ->
      calculate_times today timings = Return (format_schedule (schedule_of 1 tm ti tf)))
  \/ (forall today, valid_today today -> calculate_times today timings = Return ∅)
  \/ (forall today, valid_today today -> calculate_times today timings = Raise TypeError).
Proof.
  destruct (parse_timings_shape timings) as [(tm & ti & tf & Hm & Hi & Hf) | (e & He & E)].
  - left. exists tm, ti, tf. intros today Ht. by apply calculate_times_ok.
  - destruct He as [-> | [-> | ->]].
    + right; left. intros today Ht. eapply calculate_times_caught; eauto.
    + right; left. intros today Ht. eapply calculate_times_caught; eauto.
    + right; right. intros today Ht. by apply calculate_times_uncaught.
Qed.

(** X1. The result of [calculate_times], be it a dict, the empty dict or an
    exception, is the same on every date that has a following day. *)
Theorem calculate_times_any_day (today today' : Z) (timings : pyval) :
  valid_today today -> valid_today today' ->
  calculate_times today timings = calculate_times today' timings.
Proof.
  intros Ht Ht'.
  destruct (calculate_times_outcomes timings) as [(tm & ti & tf & H) | [H | H]];
    by rewrite (H today Ht), (H today' Ht').
Qed.

Lemma calculate_times_any_day_witness :
  calculate_times 739558 scenario_timings = calculate_times 1 scenario_timings.
Proof.
  apply (calculate_times_any_day 739558 1 scenario_timings);
    unfold valid_today, MAXORDINAL; lia.
Defined.

Lemma calculate_times_raises (today : Z) (timings : pyval) (e : exn) :
  calculate_times today timings = Raise e ->
  e = TypeError \/ (e = OverflowError /\ ~ valid_today today).
Proof.
  intros H.
  destruct (decide (1 <= today < MAXORDINAL)) as [Ht | Ht].
  - left.
    destruct (calculate_times_outcomes timings) as [(tm & ti & tf & E) | [E | E]];
      rewrite (E today Ht) in H; congruence.
  - unfold calculate_times, calculate_schedule in H.
    destruct (date_add_days today 1) as [tomorrow | e1] eqn:E1; simpl in H.
    2:{ right. split; [| exact Ht]. injection H as <-. eapply date_add_days_exn, E1. }
    destruct (parse_timings_shape timings)
      as [(tm & ti & tf & Hm & Hi & Hf) | (e2 & He2 & E2)].
    + rewrite (parse_timings_ok _ _ _ _ _ _ Hm Hi Hf) in H.
      destruct (derive_schedule _ _ _) as [s | e3] eqn:E3; simpl in H; [discriminate |].
      right. split; [| exact Ht]. injection H as <-. eapply derive_schedule_exn, E3.
    + rewrite E2 in H. destruct He2 as [-> | [-> | ->]]; simpl in H; try discriminate.
      left. congruence.
Qed.

(** X2. No [KeyError] and no [ValueError] leaves [calculate_times]: the only
    exceptions are [TypeError], and [OverflowError] when the date read from
    the clock is not a date with a following day. *)
Theorem calculate_times_exceptions (today : Z) (timings : pyval) (e : exn) :
  calculate_times today timings = Raise e ->
  e <> KeyError /\ e <> ValueError
  /\ (e = TypeError \/ (e = OverflowError /\ ~ valid_today today)).
Proof.
  intros H. destruct (calculate_times_raises _ _ _ H) as [-> | [-> Hd]].
  - repeat split; try discriminate. by left.
  - repeat split; try discriminate. right. by split.
Qed.

Lemma calculate_times_exceptions_witness :
  TypeError <> KeyError /\ TypeError <> ValueError
  /\ (TypeError = TypeError \/ (TypeError = OverflowError /\ ~ valid_today 739558)).
Proof.
  apply (calculate_times_exceptions 739558 (PyStr "18:00") TypeError).
  vm_compute. reflexivity.
Defined.

Lemma dom_format_schedule (s : schedule) : dom (format_schedule s) = schedule_keys.
Proof.
  unfold format_schedule, schedule_keys.
  rewrite !dom_insert_L, dom_singleton_L. set_solver.
Qed.

Lemma derive_schedule_wake_up (m i f : datetime) (s : schedule) :
  derive_schedule m i f = Return s -> wake_up_dt s = midnight_dt s.
Proof.
  unfold derive_schedule.
  destruct (datetime_add m _) as [midnight | e]; [| discriminate]. simpl.
  destruct (datetime_sub_delta f _) as [sleep | e]; [| discriminate]. simpl.
  intros [= <-]. reflexivity.
Qed.

Lemma calculate_schedule_wake_up (today : Z) (timings : pyval) (s : schedule) :
  calculate_schedule today timings = Return (Some s) -> wake_up_dt s = midnight_dt s.
Proof.
  unfold calculate_schedule.
  destruct (date_add_days today 1) as [tomorrow | e]; [| discriminate]. simpl.
  destruct (parse_timings today tomorrow timings) as [[[m i] f] | e].
  - destruct (derive_schedule m i f) as [s' | e] eqn:E; [| discriminate].
    intros [= <-]. eapply derive_schedule_wake_up, E.
  - destruct e; discriminate.
Qed.

(** X3. What [calculate_times] returns is either the empty dict or a dict
    with exactly the seven keys the caller reads, and in it the wake-up
    suggestion is the Islamic midnight. *)
Theorem calculate_times_keys (today : Z) (timings : pyval) (r : gmap string string) :
  calculate_times today timings = Return r ->
  (r = ∅ \/ dom r = schedule_keys)
  /\ r !! "Wake_Up_Suggestion" = r !! "Islamic_Midnight".
Proof.
  unfold calculate_times. intros H.
  destruct (calculate_schedule today timings) as [[s |] | e] eqn:E; simpl in H;
    [| | discriminate]; injection H as <-.
  - split; [right; apply dom_format_schedule |].
    apply calculate_schedule_wake_up in E.
    unfold format_schedule. rewrite E.
    by repeat (rewrite lookup_insert_ne by discriminate); rewrite !lookup_insert_eq.
  - split; [by left | reflexivity].
Qed.

Lemma calculate_times_keys_witness :
  (format_schedule (schedule_of 1 (mk_time 18 0 0 0) (mk_time 19 30 0 0) (mk_time 4 30 0 0)) = ∅
   \/ dom (format_schedule (schedule_of 1 (mk_time 18 0 0 0) (mk_time 19 30 0 0)
                                        (mk_time 4 30 0 0))) = schedule_keys)
  /\ format_schedule (schedule_of 1 (mk_time 18 0 0 0) (mk_time 19 30 0 0) (mk_time 4 30 0 0))
       !! "Wake_Up_Suggestion"
     = format_schedule (schedule_of 1 (mk_time 18 0 0 0) (mk_time 19 30 0 0) (mk_time 4 30 0 0))
       !! "Islamic_Midnight".
Proof.
  apply (calculate_times_keys 739558 scenario_timings).
  vm_compute. reflexivity.
Defined.

(** ** What the schedule shows *)

Lemma datetime_of_us_range (x : Z) :
  0 <= dt_hour (datetime_of_us x) < 24 /\ 0 <= dt_minute (datetime_of_us x) < 60.
Proof. unfold datetime_of_us; simpl. divmod_lia. Qed.




Lemma forallb_seqZ (P : Z -> bool) (m len n : Z) :
  forallb P (seqZ m len) = true -> m <= n < m + len -> P n = true.
Proof.
  intros H Hn. rewrite forallb_forall in H. apply H.
  apply list_elem_of_In, elem_of_seqZ. exact Hn.
Qed.





Lemma reads_back_all (n : Z) :
  0 <= n < 1440 ->
  strptime_HM (PyStr (fmt_0d 2 (n / 60) ++ ":" ++ fmt_0d 2 (n mod 60)))
  = Return (mk_time (n / 60) (n mod 60) 0 0).
Proof.
  intros Hn.
  assert (H : reads_back n = true)
    by (apply (forallb_seqZ reads_back 0 1440); [vm_compute; reflexivity | lia]).
  unfold reads_back in H.
  destruct (strptime_HM _) as [[h m sec us] | e]; [| discriminate].
  simpl in H. repeat (apply andb_prop in H as [H ?]).
  f_equal. f_equal; by apply Z.eqb_eq.
Qed.

(** What [strftime] writes, [strptime] reads back. *)
Lemma strptime_strftime (a : datetime) :
  0 <= dt_hour a < 24 -> 0 <= dt_minute a < 60 ->
  strptime_HM (PyStr (strftime_HM a)) = Return (mk_time (dt_hour a) (dt_minute a) 0 0).
Proof.
  intros Hh Hm. unfold strftime_HM.
  replace (dt_hour a) with ((dt_hour a * 60 + dt_minute a) / 60)
    by (Z.div_mod_to_equations; lia).
  replace (dt_minute a) with ((dt_hour a * 60 + dt_minute a) mod 60) at 2 4
    by (Z.div_mod_to_equations; lia).
  apply reads_back_all. lia.
Qed.

Lemma strptime_strftime_combine (d : Z) (t : pytime) :
  valid_time t -> strptime_HM (PyStr (strftime_HM (datetime_combine d t))) = Return t.
Proof.
  intros (Hh & Hm & Hs & Hu). rewrite strptime_strftime by assumption.
  destruct t; simpl in *. by subst.
Qed.

(** X6. The dict of a successful call holds valid HH:MM texts: the echoed
    Maghrib, Isha and Fajr read back as the very times that were parsed,
    whatever the padding of the input was, and the Islamic midnight and the
    sleep suggestion read back as times of day. *)
Theorem output_reads_back (today : Z) (timings : pyval) (tm ti tf : pytime) :
  valid_today today ->
  has_time timings "Maghrib" tm -> has_time timings "Isha" ti ->
  has_time timings "Fajr" tf ->
  exists r, calculate_times today timings = Return r
            /\ reads_as r "Maghrib" tm /\ reads_as r "Isha" ti /\ reads_as r "Fajr" tf
            /\ (exists t, reads_as r "Islamic_Midnight" t /\ valid_time t)
            /\ (exists t, reads_as r "Sleep_Suggestion" t /\ valid_time t).
Proof.
  intros Ht Hm Hi Hf. eexists. split; [by apply calculate_times_ok |].
  pose proof (has_time_valid _ _ _ Hm) as Vm.
  pose proof (has_time_valid _ _ _ Hi) as Vi.
  pose proof (has_time_valid _ _ _ Hf) as Vf.
  unfold reads_as, format_schedule, schedule_of;
    cbn [maghrib_dt isha_dt fajr_dt midnight_dt sleep_dt].
  repeat split.
  - eexists. split; [apply lookup_insert_eq | by apply strptime_strftime_combine].
  - eexists. split; [| by apply strptime_strftime_combine].
    rewrite lookup_insert_ne by discriminate. apply lookup_insert_eq.
  - eexists. split; [| by apply strptime_strftime_combine].
    do 2 (rewrite lookup_insert_ne by discriminate). apply lookup_insert_eq.
  - eexists. split; [eexists; split |].
    + do 4 (rewrite lookup_insert_ne by discriminate). apply lookup_insert_eq.
    + apply strptime_strftime; apply datetime_of_us_range.
    + unfold valid_time; cbn [t_hour t_minute t_second t_microsecond].
      match goal with
      | |- context [dt_hour (datetime_of_us ?x)] => pose proof (datetime_of_us_range x)
      end. lia.
  - eexists. split; [eexists; split |].
    + do 6 (rewrite lookup_insert_ne by discriminate). apply lookup_singleton_eq.
    + apply strptime_strftime; apply datetime_of_us_range.
    + unfold valid_time; cbn [t_hour t_minute t_second t_microsecond].
      match goal with
      | |- context [dt_hour (datetime_of_us ?x)] => pose proof (datetime_of_us_range x)
      end. lia.
Qed.

(** A mapping with times that are not zero-padded. *)
Lemma output_reads_back_witness :
  exists r, calculate_times 739558
              (PyDict {[ "Maghrib" := PyStr "18:5"; "Isha" := PyStr "19:30";
                         "Fajr" := PyStr "4:30" ]}) = Return r
            /\ reads_as r "Maghrib" (mk_time 18 5 0 0)
            /\ reads_as r "Isha" (mk_time 19 30 0 0)
            /\ reads_as r "Fajr" (mk_time 4 30 0 0)
            /\ (exists t, reads_as r "Islamic_Midnight" t /\ valid_time t)
            /\ (exists t, reads_as r "Sleep_Suggestion" t /\ valid_time t).
Proof.
  apply (output_reads_back 739558 _ (mk_time 18 5 0 0) (mk_time 19 30 0 0) (mk_time 4 30 0 0)).
  - unfold valid_today, MAXORDINAL; lia.
  - eexists; split; [vm_compute; reflexivity | vm_compute; reflexivity].
  - eexists; split; [vm_compute; reflexivity | vm_compute; reflexivity].
  - eexists; split; [vm_compute; reflexivity | vm_compute; reflexivity].
Defined.

(** ** The provider, case by case *)

Lemma truthy_default (o : option pyval) :
  truthy (default PyNone o) = true -> exists v, o = Some v /\ truthy v = true.
Proof. destruct o as [v |]; simpl; [eauto | discriminate]. Qed.

(** Every way the [try] block of [get_prayer_times] can end. *)
Lemma request_timings_cases (reply : http_reply) :
  request_timings reply = Raise RequestException
  \/ request_timings reply = Return PyNone
  \/ request_timings reply = Raise AttributeError
  \/ exists status data v,
       reply = Response status (Some data) /\ ~ (400 <= status < 600)
       /\ nested_timings data = Some v /\ truthy v = true
       /\ request_timings reply = Return v.
Proof.
  destruct reply as [| status [data |]]; simpl; [by left | | ].
  2:{ destruct ((400 <=? status) && (status <? 600)); by left. }
  destruct ((400 <=? status) && (status <? 600)) eqn:Es; [by left |].
  assert (Hs : ~ (400 <= status < 600)).
  { intros [H1 H2]. apply Z.leb_le in H1. apply Z.ltb_lt in H2.
    rewrite H1, H2 in Es. discriminate. }
  destruct (truthy data) eqn:Td; simpl; [| right; by left].
  destruct data as [| b | n | str | l | d]; simpl; try (right; right; by left).
  destruct (truthy (default PyNone (d !! "data"))) eqn:Ti; simpl; [| right; by left].
  apply truthy_default in Ti as (inner & Ei & Ti). rewrite Ei; simpl.
  destruct inner as [| b | n | str | l | d']; simpl; try (right; right; by left).
  destruct (truthy (default PyNone (d' !! "timings"))) eqn:Tt; simpl; [| right; by left].
  apply truthy_default in Tt as (v & Ev & Tv). rewrite Ev.
  right; right; right. exists status, (PyDict d), v. simpl. rewrite Ei, Ev. eauto 10.
Qed.

Lemma get_prayer_times_raises (w : world) (c k : string) (e : exn) :
  get_prayer_times w c k = Raise e -> e = AttributeError.
Proof.
  unfold get_prayer_times.
  destruct (request_timings_cases (http_get w (mk_request (date_at_fetch w) c k 5)))
    as [-> | [-> | [-> | (status & data & v & _ & _ & _ & _ & ->)]]]; congruence.
Qed.

(** X7. [get_prayer_times] ends in one of three ways: the unavailable
    signal; a truthy value that is the [timings] entry of the [data] object
    of a decoded body whose status is not 4xx or 5xx; or [AttributeError].
    It never lets a request exception out and never returns an empty
    mapping. *)
Theorem get_prayer_times_outcomes (w : world) (c k : string) :
  get_prayer_times w c k = Return PyNone
  \/ get_prayer_times w c k = Raise AttributeError
  \/ exists status data v,
       http_get w (mk_request (date_at_fetch w) c k 5) = Response status (Some data)
       /\ ~ (400 <= status < 600)
       /\ nested_timings data = Some v /\ truthy v = true
       /\ get_prayer_times w c k = Return v.
Proof.
  unfold get_prayer_times.
  destruct (request_timings_cases (http_get w (mk_request (date_at_fetch w) c k 5)))
    as [-> | [-> | [-> | (status & data & v & E & Hs & Hn & Hv & ->)]]];
    [by left | by left | right; by left |].
  right; right. exists status, data, v. eauto 10.
Qed.

(** ** The handlers, step by step *)

Lemma bind_send {B : Type} (a : action) (k : unit -> handler B) (s : store) :
  (send a ≫= k) s =
  (outcome (k tt s), store_after (k tt s), a :: sent (k tt s)).
Proof.
  unfold mbind, handler_bind, send. by destruct (k tt s) as [[r s'] out].
Qed.

Lemma bind_lift {A B : Type} (r : result A) (k : A -> handler B) (s : store) :
  (lift r ≫= k) s =
  match r with
  | Return a => k a s
  | Raise e => (Raise e, s, [])
  end.
Proof.
  unfold mbind, handler_bind, lift. destruct r as [a | e]; [| reflexivity].
  by destruct (k a s) as [[r' s'] out].
Qed.

(** [fetch_and_send_times] written out. *)
Lemma fetch_and_send_times_unfold (w : world) (c k : string) (s : store) :
  fetch_and_send_times w c k s =
  match get_prayer_times w c k with
  | Raise e => (Raise e, s, [])
  | Return timings =>
      if truthy timings then
        match calculate_times (date_at_calc w) timings with
        | Raise e => (Raise e, s, [])
        | Return results =>
            if bool_decide (results = ∅)
            then (Return tt, s, [ReplyText MsgProcessingError])
            else (Return tt, s, [ReplyText (MsgSchedule c k results)])
        end
      else (Return tt, s, [ReplyText (MsgUnavailable c k)])
  end.
Proof.
  unfold fetch_and_send_times. rewrite bind_lift.
  destruct (get_prayer_times w c k) as [timings | e]; [| reflexivity].
  destruct (truthy timings); simpl; [| reflexivity].
  rewrite bind_lift.
  destruct (calculate_times (date_at_calc w) timings) as [results | e]; [| reflexivity].
  by destruct (bool_decide (results = ∅)).
Qed.

Lemma calculate_times_dom (today : Z) (timings : pyval) (r : gmap string string) :
  calculate_times today timings = Return r -> r <> ∅ -> dom r = schedule_keys.
Proof.
  unfold calculate_times. intros H Hne.
  destruct (calculate_schedule today timings) as [[sch |] | e]; simpl in H;
    [| | discriminate]; injection H as <-; [apply dom_format_schedule | done].
Qed.

(** X8. [fetch_and_send_times] either returns after exactly one message,
    which is the could-not-find text, the processing-error text or the
    schedule with all seven entries, or it raises [AttributeError],
    [TypeError] or [OverflowError] without having sent anything; in no case
    does it touch the store. *)
Theorem fetch_and_send_times_outcomes (w : world) (c k : string) (s : store) :
  store_after (fetch_and_send_times w c k s) = s
  /\ match outcome (fetch_and_send_times w c k s) with
     | Return _ =>
         exists m, sent (fetch_and_send_times w c k s) = [ReplyText m]
                   /\ (m = MsgUnavailable c k \/ m = MsgProcessingError
                       \/ exists r, m = MsgSchedule c k r /\ dom r = schedule_keys)
     | Raise e =>
         sent (fetch_and_send_times w c k s) = []
         /\ (e = AttributeError \/ e = TypeError \/ e = OverflowError)
     end.
Proof.
  rewrite fetch_and_send_times_unfold.
  destruct (get_prayer_times w c k) as [timings | e] eqn:G; simpl.
  2:{ repeat split. left. eapply get_prayer_times_raises, G. }
  destruct (truthy timings); simpl.
  2:{ split; [reflexivity |]. eexists. split; [reflexivity | by left]. }
  destruct (calculate_times (date_at_calc w) timings) as [results | e] eqn:C; simpl.
  2:{ repeat split. right.
      destruct (calculate_times_raises _ _ _ C) as [-> | [-> _]]; [by left | by right]. }
  destruct (bool_decide (results = ∅)) eqn:E; simpl.
  - split; [reflexivity |]. eexists. split; [reflexivity | right; by left].
  - split; [reflexivity |]. eexists. split; [reflexivity |]. right; right.
    exists results. split; [reflexivity |].
    apply (calculate_times_dom _ _ _ C). intros ->.
    by rewrite bool_decide_eq_true_2 in E.
Qed.

Lemma after_underscore_append (c : string) :
  after_underscore ("country_" ++ c) = Return c.
Proof. reflexivity. Qed.

Lemma button_callback_cases (user : Z) (data : string) (s : store) :
  (exists c, data = ("country_" ++ c)%string
             /\ button_callback user data s =
                (Return tt, set_awaiting user c s,
                 [AnswerCallback; EditMessageText (MsgCountryChosen c)]))
  \/ (String.prefix "country_" data = false
      /\ button_callback user data s = (Return tt, s, [AnswerCallback])).
Proof.
  destruct (String.prefix "country_" data) eqn:E.
  - left. destruct (prefix_split _ _ E) as [c ->]. exists c.
    split; [reflexivity | apply button_callback_country].
  - right. split; [reflexivity | by apply button_callback_other].
Qed.

(** X9. [button_callback] returns normally on every payload, the index
    into the split never fails, and it leaves every saved location as it
    was: the presser's own saved location stays next to the newly pending
    country. *)
Theorem button_callback_total (user : Z) (data : string) (s : store) :
  outcome (button_callback user data s) = Return tt
  /\ user_locations (store_after (button_callback user data s)) = user_locations s
  /\ forall c : string,
       data = ("country_" ++ c)%string ->
       session (store_after (button_callback user data s)) user
       = (user_locations s !! user, Some c).
Proof.
  destruct (button_callback_cases user data s) as [(c & -> & E) | (Hp & E)];
    rewrite E; unfold outcome, store_after, session; simpl.
  - repeat split. intros c' Hc.
    assert (c' = c) as -> by (by injection Hc).
    by rewrite lookup_insert_eq.
  - repeat split. intros c' ->. by rewrite prefix_append in Hp.
Qed.

Lemma times_command_unfold (w : world) (user : Z) (s : store) :
  times_command w user s =
  match user_locations s !! user with
  | None => (Return tt, s, [ReplyText MsgNoLocation])
  | Some loc =>
      let F := fetch_and_send_times w (city loc) (country loc) s in
      (outcome F, store_after F,
       ReplyText (MsgSearchingSaved (city loc) (country loc)) :: sent F)
  end.
Proof.
  unfold times_command. rewrite bind_get_store.
  destruct (user_locations s !! user) as [loc |]; [| reflexivity].
  apply bind_send.
Qed.

Lemma handle_message_unfold (w : world) (user : Z) (message_text : string) (s : store) :
  handle_message w user message_text s =
  match users_awaiting_city s !! user with
  | None => (Return tt, s, [ReplyText MsgGuidance])
  | Some c =>
      let text := strip message_text in
      let F := fetch_and_send_times w text c (set_location user text c (remove_awaiting user s)) in
      (outcome F, store_after F,
       ReplyText (MsgLocationSaved text c) :: ReplyText (MsgSearching text c) :: sent F)
  end.
Proof.
  unfold handle_message. rewrite bind_get_store.
  destruct (users_awaiting_city s !! user) as [c |]; [| reflexivity].
  rewrite bind_put_store, bind_get_store, bind_put_store.
  rewrite bind_send. rewrite bind_send. reflexivity.
Qed.

Lemma times_command_store (w : world) (user : Z) (s : store) :
  store_after (times_command w user s) = s.
Proof.
  rewrite times_command_unfold.
  destruct (user_locations s !! user) as [loc |]; [| reflexivity].
  apply fetch_and_send_times_store.
Qed.

Lemma chosen_country_append (c : string) : chosen_country ("country_" ++ c) = Some c.
Proof. unfold chosen_country. by rewrite prefix_append, after_underscore_append. Qed.

Lemma button_callback_store (user : Z) (data : string) (s : store) :
  store_after (button_callback user data s) =
  match chosen_country data with
  | Some c => set_awaiting user c s
  | None => s
  end.
Proof.
  destruct (button_callback_cases user data s) as [(c & -> & E) | (Hp & E)]; rewrite E.
  - by rewrite chosen_country_append.
  - unfold chosen_country. by rewrite Hp.
Qed.

(** The store after any event, by the event alone. *)
Lemma handle_event_store (COUNTRIES : list string) (w : world) (user : Z) (ev : event)
    (s : store) :
  store_after (handle_event COUNTRIES w user ev s) =
  match ev with
  | Command _ => s
  | ButtonPress data =>
      match chosen_country data with
      | Some c => set_awaiting user c s
      | None => s
      end
  | Text message_text =>
      match users_awaiting_city s !! user with
      | Some c => set_location user (strip message_text) c (remove_awaiting user s)
      | None => s
      end
  end.
Proof.
  destruct ev as [[| |] | data | message_text]; simpl.
  - reflexivity.
  - reflexivity.
  - apply times_command_store.
  - apply button_callback_store.
  - apply handle_message_store.
Qed.

(** X10. The session of the sender moves as a state machine that the
    provider cannot disturb: a command leaves it as it is; a payload that
    starts with "country_" makes the rest of the payload the pending country
    and keeps the saved location; any other payload changes nothing; a text
    from a pending user saves the stripped text with the pending country and
    ends the pending state; a text from a user who is not pending changes
    nothing.  This holds whatever the service answers and also when the
    handler raises. *)
Theorem session_transitions (COUNTRIES : list string) (w : world) (user : Z) (ev : event)
    (s : store) :
  session (store_after (handle_event COUNTRIES w user ev s)) user
  = next_session ev (session s user).
Proof.
  rewrite handle_event_store. unfold session, next_session.
  destruct ev as [cmd | data | message_text]; simpl.
  - reflexivity.
  - destruct (chosen_country data) as [c |]; simpl; [| reflexivity].
    by rewrite lookup_insert_eq.
  - destruct (users_awaiting_city s !! user) as [c |] eqn:E; simpl; [| by rewrite E].
    by rewrite lookup_insert_eq, lookup_delete_eq.
Qed.

(** X11. An event of one user never changes the session of another user,
    and the store a handler leaves does not depend on the service, the
    clock or the list of countries. *)
Theorem other_sessions_untouched (COUNTRIES COUNTRIES' : list string) (w w' : world)
    (user other : Z) (ev : event) (s : store) :
  other <> user ->
  session (store_after (handle_event COUNTRIES w user ev s)) other = session s other
  /\ store_after (handle_event COUNTRIES w user ev s)
     = store_after (handle_event COUNTRIES' w' user ev s).
Proof.
  intros Hne. split; [| by rewrite !handle_event_store].
  rewrite handle_event_store. unfold session.
  destruct ev as [cmd | data | message_text]; simpl.
  - reflexivity.
  - destruct (chosen_country data) as [c |]; simpl; [| reflexivity].
    by rewrite lookup_insert_ne.
  - destruct (users_awaiting_city s !! user) as [c |]; simpl; [| reflexivity].
    rewrite lookup_insert_ne by done. by rewrite lookup_delete_ne.
Qed.

(** Two users in the middle of the selection. *)
Lemma other_sessions_untouched_witness :
  session (store_after (handle_event [] offline 7 (Text "Cairo")
                          (mk_store ∅ {[ 7 := "Egypt"; 8 := "Jordan" ]} []))) 8
  = session (mk_store ∅ {[ 7 := "Egypt"; 8 := "Jordan" ]} []) 8
  /\ store_after (handle_event [] offline 7 (Text "Cairo")
                    (mk_store ∅ {[ 7 := "Egypt"; 8 := "Jordan" ]} []))
     = store_after (handle_event ["Egypt"] (answering empty_body) 7 (Text "Cairo")
                      (mk_store ∅ {[ 7 := "Egypt"; 8 := "Jordan" ]} [])).
Proof.
  apply (other_sessions_untouched [] ["Egypt"] offline (answering empty_body) 7 8).
  lia.
Defined.

(** X12. Choosing a country and then sending a city, from any store and
    for any country text, underscores included: the sender ends with the
    stripped city and that country saved and nothing pending, and every
    other user is where they were. *)
Theorem selection_flow (COUNTRIES : list string) (w w' : world) (user : Z)
    (c message_text : string) (s : store) :
  let s1 := store_after (handle_event COUNTRIES w user (ButtonPress ("country_" ++ c)) s) in
  let s2 := store_after (handle_event COUNTRIES w' user (Text message_text) s1) in
  session s2 user = (Some (mk_location (strip message_text) c), None)
  /\ forall other : Z, other <> user -> session s2 other = session s other.
Proof.
  cbv zeta. rewrite !handle_event_store, chosen_country_append.
  cbn [users_awaiting_city set_awaiting]. rewrite lookup_insert_eq.
  unfold session; simpl. split.
  - by rewrite lookup_insert_eq, lookup_delete_eq.
  - intros other Hne. rewrite lookup_insert_ne by done.
    rewrite lookup_delete_ne by done. by rewrite lookup_insert_ne.
Qed.

(** ** The keyboard of [start] *)

Lemma keyboard_rows_spec (n : nat) (l : list string) :
  (length l <= n)%nat ->
  concat (keyboard_rows l) = map country_button l
  /\ Forall (fun row : list button => (1 <= length row <= 3)%nat) (keyboard_rows l)
  /\ (3 * length (keyboard_rows l) < length l + 3)%nat
  /\ (length l <= 3 * length (keyboard_rows l))%nat.
Proof.
  revert l. induction n as [| n IH]; intros l Hl.
  - destruct l; [| simpl in Hl; lia]. simpl. repeat split; [constructor | lia | lia].
  - destruct l as [| c1 [| c2 [| c3 rest]]]; simpl.
    + repeat split; [constructor | lia | lia].
    + repeat split; [repeat constructor; simpl; lia | lia | lia].
    + repeat split; [repeat constructor; simpl; lia | lia | lia].
    + destruct (IH rest) as (E & F & L1 & L2); [simpl in Hl; lia |].
      fold (keyboard_rows rest). rewrite E.
      repeat split; [constructor; [simpl; lia | exact F] | lia | lia].
Qed.

(** X13. The keyboard that [start] sends offers every country of the list
    exactly once and in order, three buttons to a row with only the last
    row possibly shorter, and no row is empty; [start] itself sends the
    greeting and the keyboard and leaves the store alone. *)
Theorem start_keyboard (COUNTRIES : list string) (user : Z) (s : store) :
  start COUNTRIES user s =
  (Return tt, s, [ReplyHtml (MsgWelcome user);
                  ReplyText (MsgChooseCountry (keyboard_rows COUNTRIES))])
  /\ concat (keyboard_rows COUNTRIES) = map country_button COUNTRIES
  /\ Forall (fun row : list button => (1 <= length row <= 3)%nat) (keyboard_rows COUNTRIES)
  /\ length (keyboard_rows COUNTRIES) = ((length COUNTRIES + 2) / 3)%nat.
Proof.
  destruct (keyboard_rows_spec (length COUNTRIES) COUNTRIES (le_n _)) as (E & F & L1 & L2).
  repeat split; [exact E | exact F |].
  apply Nat.div_unique with (r := (length COUNTRIES + 2
    - 3 * length (keyboard_rows COUNTRIES))%nat); lia.
Qed.

Lemma elem_of_concat {A : Type} (x : A) (row : list A) (rows : list (list A)) :
  row ∈ rows -> x ∈ row -> x ∈ concat rows.
Proof.
  intros Hrow Hx. induction rows as [| r rows IH]; [by apply elem_of_nil in Hrow |].
  simpl. apply elem_of_app. apply elem_of_cons in Hrow as [-> | Hrow]; auto.
Qed.

Lemma keyboard_rows_buttons (l : list string) (row : list button) (b : button) :
  row ∈ keyboard_rows l -> b ∈ row -> exists c, c ∈ l /\ b = country_button c.
Proof.
  intros Hrow Hb.
  assert (H : b ∈ concat (keyboard_rows l)) by (eapply elem_of_concat; eauto).
  destruct (keyboard_rows_spec (length l) l (le_n _)) as (E & _).
  rewrite E in H. apply list_elem_of_fmap in H as (c & -> & Hc). eauto.
Qed.

(** X14. Pressing any button of the keyboard makes exactly the country on
    the button the pending country of the presser, also when the name
    contains an underscore, and the message is edited to name it. *)
Theorem keyboard_button_selects (COUNTRIES : list string) (row : list button) (b : button)
    (user : Z) (s : store) :
  row ∈ keyboard_rows COUNTRIES -> b ∈ row ->
  button_text b ∈ COUNTRIES
  /\ button_callback user (callback_data b) s =
     (Return tt, set_awaiting user (button_text b) s,
      [AnswerCallback; EditMessageText (MsgCountryChosen (button_text b))]).
Proof.
  intros Hrow Hb.
  destruct (keyboard_rows_buttons _ _ _ Hrow Hb) as (c & Hc & ->).
  split; [exact Hc | apply button_callback_country].
Qed.

Lemma keyboard_button_selects_witness :
  button_text (country_button "Abu_Dhabi") ∈ ["Egypt"; "Abu_Dhabi"]
  /\ button_callback 7 (callback_data (country_button "Abu_Dhabi")) (mk_store ∅ ∅ []) =
     (Return tt, set_awaiting 7 (button_text (country_button "Abu_Dhabi")) (mk_store ∅ ∅ []),
      [AnswerCallback;
       EditMessageText (MsgCountryChosen (button_text (country_button "Abu_Dhabi")))]).
Proof.
  apply (keyboard_button_selects ["Egypt"; "Abu_Dhabi"]
           [country_button "Egypt"; country_button "Abu_Dhabi"]).
  - simpl. constructor.
  - constructor. constructor.
Defined.

(** ** The saved city *)

(** Decoding reads a character off the front of a text, whatever follows. *)
Lemma decode_char_length (s r : string) (cp : Z) :
  decode_char s = Some (cp, r) -> (String.length r < String.length s)%nat.
Proof.
  unfold decode_char. intros H.
  repeat case_match; simplify_eq; simpl; lia.
Qed.

Lemma decode_char_app (s r w : string) (cp : Z) :
  decode_char s = Some (cp, r) -> decode_char (s ++ w) = Some (cp, (r ++ w)%string).
Proof.
  unfold decode_char. intros H.
  destruct s as [| b0 [| b1 [| b2 [| b3 r3]]]];
    repeat match goal with
           | |- context [(String ?c ?t ++ ?u)%string] =>
               change (String c t ++ u)%string with (String c (t ++ u)%string)
           | |- context [("" ++ ?u)%string] => change ("" ++ u)%string with u
           end;
    repeat (case_match; simplify_eq; try done).
Qed.

Lemma drop_space_length (s r : string) :
  drop_space s = Some r -> (String.length r < String.length s)%nat.
Proof.
  unfold drop_space. destruct (decode_char s) as [[cp r'] |] eqn:D; [| discriminate].
  destruct (is_whitespace cp); [| discriminate].
  intros [= <-]. by eapply decode_char_length.
Qed.

Lemma drop_space_app (s r w : string) :
  drop_space s = Some r -> drop_space (s ++ w) = Some (r ++ w)%string.
Proof.
  unfold drop_space. destruct (decode_char s) as [[cp r'] |] eqn:D; [| discriminate].
  rewrite (decode_char_app _ _ w _ D).
  destruct (is_whitespace cp); [| discriminate]. by intros [= <-].
Qed.

Lemma lstrip_from_rounds (n m : nat) (s : string) :
  (String.length s <= n)%nat -> (String.length s <= m)%nat ->
  lstrip_from n s = lstrip_from m s.
Proof.
  revert m s. induction n as [| n IH]; intros m s Hn Hm.
  - destruct s; [| simpl in Hn; lia]. by destruct m.
  - destruct m as [| m].
    + destruct s; [reflexivity | simpl in Hm; lia].
    + simpl. destruct (drop_space s) as [r |] eqn:D; [| reflexivity].
      apply drop_space_length in D. apply IH; lia.
Qed.

Lemma lstrip_step (s r : string) : drop_space s = Some r -> lstrip s = lstrip r.
Proof.
  intros D. pose proof (drop_space_length _ _ D) as L. unfold lstrip.
  destruct (String.length s) as [| n] eqn:E; [lia |].
  simpl. rewrite D. apply lstrip_from_rounds; lia.
Qed.

Lemma lstrip_stop (s : string) : drop_space s = None -> lstrip s = s.
Proof.
  intros D. unfold lstrip. destruct (String.length s); simpl; [reflexivity |].
  by rewrite D.
Qed.

Lemma lstrip_starts (s : string) : starts_with_space (lstrip s) = false.
Proof.
  assert (G : forall (n : nat) (t : string), (String.length t <= n)%nat ->
                drop_space (lstrip_from n t) = None).
  { induction n as [| n IH]; intros t Ht.
    - destruct t; [reflexivity | simpl in Ht; lia].
    - simpl. destruct (drop_space t) as [r |] eqn:D; [| exact D].
      apply IH. apply drop_space_length in D. lia. }
  unfold starts_with_space, lstrip. by rewrite G.
Qed.

Lemma lstrip_app_space (p w : string) :
  lstrip p = "" -> lstrip w = "" -> lstrip (p ++ w) = "".
Proof.
  intros Hp Hw. remember (String.length p) as n eqn:E.
  assert (L : (String.length p <= n)%nat) by lia. clear E.
  revert p L Hp. induction n as [| n IH]; intros p L Hp.
  - destruct p; [exact Hw | simpl in L; lia].
  - destruct (drop_space p) as [r |] eqn:D.
    + rewrite (lstrip_step _ _ (drop_space_app _ _ w D)).
      apply IH.
      * apply drop_space_length in D. lia.
      * by rewrite <- (lstrip_step _ _ D).
    + rewrite (lstrip_stop _ D) in Hp. subst p. exact Hw.
Qed.

Lemma rstrip_cons (c : ascii) (r : string) :
  rstrip (String c r) =
  match lstrip (String c r) with
  | EmptyString => EmptyString
  | String _ _ => String c (rstrip r)
  end.
Proof. reflexivity. Qed.

(** [rstrip] cuts off a run of whitespace. *)
Lemma rstrip_split (s : string) :
  exists w, s = (rstrip s ++ w)%string /\ lstrip w = "".
Proof.
  induction s as [| c r (w & E & Hw)]; [by exists "" |].
  rewrite rstrip_cons. destruct (lstrip (String c r)) eqn:L.
  - by exists (String c r).
  - exists w. split; [| exact Hw].
    change (String c r = String c (rstrip r ++ w)). by rewrite <- E.
Qed.

Lemma rstrip_starts (s : string) :
  starts_with_space s = false -> starts_with_space (rstrip s) = false.
Proof.
  unfold starts_with_space. intros H.
  destruct (rstrip_split s) as (w & E & _).
  destruct (drop_space (rstrip s)) as [r |] eqn:D; [| reflexivity].
  rewrite E, (drop_space_app _ _ w D) in H. discriminate.
Qed.

Lemma rstrip_ends (s : string) : ends_with_space (rstrip s) = false.
Proof.
  induction s as [| c r IH]; [reflexivity |].
  rewrite rstrip_cons. destruct (lstrip (String c r)) as [| c' r'] eqn:L; [reflexivity |].
  destruct (rstrip_split r) as (w & E & Hw).
  cbn [ends_with_space].
  destruct (drop_space (String c (rstrip r))) as [[| c'' r''] |] eqn:D; try exact IH.
  exfalso. apply (drop_space_app _ _ w) in D.
  change (String c (rstrip r) ++ w)%string with (String c (rstrip r ++ w)) in D.
  rewrite <- E in D. rewrite (lstrip_step _ _ D) in L.
  change ("" ++ w)%string with w in L. congruence.
Qed.

Lemma rstrip_idem (s : string) : rstrip (rstrip s) = rstrip s.
Proof.
  induction s as [| c r IH]; [reflexivity |].
  rewrite rstrip_cons. destruct (lstrip (String c r)) as [| c' r'] eqn:L; [reflexivity |].
  rewrite rstrip_cons, IH.
  destruct (lstrip (String c (rstrip r))) eqn:L'; [| reflexivity].
  exfalso. destruct (rstrip_split r) as (w & E & Hw).
  pose proof (lstrip_app_space _ _ L' Hw) as F.
  change (String c (rstrip r) ++ w)%string with (String c (rstrip r ++ w)) in F.
  rewrite <- E in F. congruence.
Qed.

Lemma strip_idem (s : string) : strip (strip s) = strip s.
Proof.
  unfold strip.
  assert (D : starts_with_space (rstrip (lstrip s)) = false)
    by apply rstrip_starts, lstrip_starts.
  unfold starts_with_space in D.
  destruct (drop_space (rstrip (lstrip s))) eqn:E; [discriminate |].
  rewrite (lstrip_stop _ E). apply rstrip_idem.
Qed.


Lemma decode_char_split (s r : string) (cp : Z) :
  decode_char s = Some (cp, r) ->
  exists h, s = (h ++ r)%string /\ decode_char h = Some (cp, "").
Proof.
  intros H.
  assert (G : forall h : string, s = (h ++ r)%string ->
                decode_char (h ++ "") = Some (cp, "") -> 
                exists h, s = (h ++ r)%string /\ decode_char h = Some (cp, "")).
  { intros h E D. exists h. split; [exact E |].
    replace (h ++ "")%string with h in D; [exact D |].
    clear. induction h as [| c h IH]; [reflexivity |]. 
    change (String c h = String c (h ++ "")). by rewrite <- IH. }
  unfold decode_char in H.
  destruct s as [| b0 [| b1 [| b2 [| b3 r3]]]];
    repeat (first [discriminate | case_match; simplify_eq]).
  all: first [ apply (G (String b0 "")); [reflexivity |]
             | apply (G (String b0 (String b1 ""))); [reflexivity |]
             | apply (G (String b0 (String b1 (String b2 "")))); [reflexivity |]
             | apply (G (String b0 (String b1 (String b2 (String b3 ""))))); [reflexivity |] ].
  all: unfold decode_char;
    repeat match goal with
           | |- context [(String ?c ?t ++ ?u)%string] =>
               change (String c t ++ u)%string with (String c (t ++ u)%string)
           | |- context [("" ++ ?u)%string] => change ("" ++ u)%string with u
           end.
  all: cbv beta iota; repeat match goal with E : _ = _ |- _ => rewrite E; clear E end;
    reflexivity.
Qed.

Lemma drop_space_split (s r : string) :
  drop_space s = Some r -> exists h, s = (h ++ r)%string /\ drop_space h = Some "".
Proof.
  unfold drop_space. destruct (decode_char s) as [[cp r'] |] eqn:D; [| discriminate].
  destruct (is_whitespace cp) eqn:W; [| discriminate]. intros [= <-].
  destruct (decode_char_split _ _ _ D) as (h & E & Dh).
  exists h. by rewrite Dh, W.
Qed.

(** [lstrip] cuts off a run of whitespace. *)
Lemma lstrip_split (s : string) :
  exists lead, s = (lead ++ lstrip s)%string /\ lstrip lead = "".
Proof.
  remember (String.length s) as n eqn:E.
  assert (L : (String.length s <= n)%nat) by lia. clear E.
  revert s L. induction n as [| n IH]; intros s L.
  - destruct s; [by exists "" | simpl in L; lia].
  - destruct (drop_space s) as [r |] eqn:D.
    + destruct (drop_space_split _ _ D) as (h & E & Dh).
      destruct (IH r) as (lead & El & Hl); [apply drop_space_length in D; lia |].
      exists (h ++ lead)%string. split.
      * rewrite (lstrip_step _ _ D), E at 1. rewrite El at 1.
        clear. induction h as [| c h IH]; [reflexivity |].
        change (String c (h ++ lead ++ lstrip r) = String c ((h ++ lead) ++ lstrip r)).
        by rewrite IH.
      * rewrite (lstrip_step _ _ (drop_space_app _ _ lead Dh)). exact Hl.
    + exists "". by rewrite (lstrip_stop _ D).
Qed.

Lemma ends_with_space_cons (c : ascii) (r : string) :
  ends_with_space r = true -> ends_with_space (String c r) = true.
Proof.
  intros H. cbn [ends_with_space].
  by destruct (drop_space (String c r)) as [[|] |].
Qed.

Lemma space_run_ends (s : string) :
  lstrip s = "" -> s <> "" -> ends_with_space s = true.
Proof.
  remember (String.length s) as n eqn:E.
  assert (L : (String.length s <= n)%nat) by lia. clear E.
  revert s L. induction n as [| n IH]; intros s L Hs Hn.
  - destruct s; [done | simpl in L; lia].
  - destruct (drop_space s) as [r |] eqn:D.
    2:{ rewrite (lstrip_stop _ D) in Hs. done. }
    destruct (drop_space_split _ _ D) as (h & E & Dh).
    destruct r as [| c r].
    + destruct s as [| c s]; [done |]. cbn [ends_with_space]. by rewrite D.
    + assert (R : ends_with_space (String c r) = true).
      { apply IH; [apply drop_space_length in D; lia | | done].
        by rewrite <- (lstrip_step _ _ D). }
      rewrite E. clear - R. induction h as [| a h IH]; [exact R |].
      change (ends_with_space (String a (h ++ String c r)) = true).
      by apply ends_with_space_cons.
Qed.

Lemma rstrip_clean (s : string) : ends_with_space s = false -> rstrip s = s.
Proof.
  induction s as [| c r IH]; [reflexivity |]. intros E.
  rewrite rstrip_cons.
  destruct (lstrip (String c r)) as [| c' r'] eqn:L.
  - rewrite space_run_ends in E; done.
  - f_equal. apply IH. cbn [ends_with_space] in E.
    by destruct (drop_space (String c r)) as [[|] |].
Qed.

Lemma strip_split (s : string) :
  exists lead trail, s = (lead ++ strip s ++ trail)%string
                     /\ lstrip lead = "" /\ lstrip trail = "".
Proof.
  destruct (lstrip_split s) as (lead & E & Hl).
  destruct (rstrip_split (lstrip s)) as (trail & E' & Ht).
  exists lead, trail. unfold strip. by rewrite <- E', <- E.
Qed.

Lemma strip_clean (s : string) :
  starts_with_space s = false -> ends_with_space s = false -> strip s = s.
Proof.
  unfold starts_with_space, strip. intros H1 H2.
  destruct (drop_space s) eqn:D; [discriminate |].
  rewrite (lstrip_stop _ D). by apply rstrip_clean.
Qed.

(** X15. The city a pending user's text is saved as never starts or ends
    with whitespace and stripping it again changes nothing; a text of
    whitespace only is saved as the empty city. *)
Theorem saved_city_is_clean (w : world) (user : Z) (message_text c : string) (s : store) :
  users_awaiting_city s !! user = Some c ->
  exists loc, user_locations (store_after (handle_message w user message_text s)) !! user
              = Some loc
              /\ country loc = c
              /\ starts_with_space (city loc) = false
              /\ ends_with_space (city loc) = false
              /\ strip (city loc) = city loc
              /\ (lstrip message_text = "" -> city loc = "").
Proof.
  intros E. rewrite handle_message_store, E. simpl. rewrite lookup_insert_eq.
  eexists. split; [reflexivity |]. simpl.
  assert (S1 : starts_with_space (strip message_text) = false)
    by (apply rstrip_starts, lstrip_starts).
  assert (S2 : ends_with_space (strip message_text) = false) by apply rstrip_ends.
  repeat split; try assumption.
  - apply strip_idem.
  - unfold strip. by intros ->.
Qed.

Lemma saved_city_is_clean_witness :
  exists loc, user_locations (store_after (handle_message offline 7 " نيو كايرو　" egypt_pending))
              !! 7 = Some loc
              /\ country loc = "Egypt"
              /\ starts_with_space (city loc) = false
              /\ ends_with_space (city loc) = false
              /\ strip (city loc) = city loc
              /\ (lstrip " نيو كايرو　" = "" -> city loc = "").
Proof.
  apply (saved_city_is_clean offline 7 " نيو كايرو　" "Egypt" egypt_pending).
  vm_compute. reflexivity.
Defined.

(** X21. Stripping loses nothing but whitespace: the text a pending user
    sent is the saved city between a run of whitespace characters before it
    and one after it, and a text that neither starts nor ends with a
    whitespace character is saved as it was sent. *)
Theorem saved_city_in_text (w : world) (user : Z) (message_text c : string) (s : store) :
  users_awaiting_city s !! user = Some c ->
  exists (loc : location) (lead trail : string),
    user_locations (store_after (handle_message w user message_text s)) !! user = Some loc
    /\ message_text = (lead ++ city loc ++ trail)%string
    /\ lstrip lead = "" /\ lstrip trail = ""
    /\ (starts_with_space message_text = false -> ends_with_space message_text = false ->
        city loc = message_text).
Proof.
  intros E. rewrite handle_message_store, E. simpl. rewrite lookup_insert_eq.
  destruct (strip_split message_text) as (lead & trail & Es & Hl & Ht).
  exists (mk_location (strip message_text) c), lead, trail.
  repeat split; try assumption. apply strip_clean.
Qed.

Lemma saved_city_in_text_witness :
  exists (loc : location) (lead trail : string),
    user_locations (store_after (handle_message offline 7 " الخرطوم " egypt_pending)) !! 7
    = Some loc
    /\ " الخرطوم " = (lead ++ city loc ++ trail)%string
    /\ lstrip lead = "" /\ lstrip trail = ""
    /\ (starts_with_space " الخرطوم " = false -> ends_with_space " الخرطوم " = false ->
        city loc = " الخرطوم ").
Proof.
  apply (saved_city_in_text offline 7 " الخرطوم " "Egypt" egypt_pending).
  vm_compute. reflexivity.
Defined.

(** ** Asking again, and handlers that raise *)

(** X16. The "times" command right after a city text repeats its fetch:
    both turns end as the fetch for the stripped city and the pending
    country ends, the text turn after its two progress messages and the
    command turn after its one, and the command leaves the store as the
    text turn left it. *)
Theorem times_repeats_fetch (w : world) (user : Z) (message_text c : string) (s : store) :
  users_awaiting_city s !! user = Some c ->
  let s' := store_after (handle_message w user message_text s) in
  let F := fetch_and_send_times w (strip message_text) c s' in
  handle_message w user message_text s =
    (outcome F, s', ReplyText (MsgLocationSaved (strip message_text) c)
                    :: ReplyText (MsgSearching (strip message_text) c) :: sent F)
  /\ times_command w user s' =
    (outcome F, s', ReplyText (MsgSearchingSaved (strip message_text) c) :: sent F).
Proof.
  intros E. cbv zeta.
  rewrite handle_message_store, E.
  set (s' := set_location user (strip message_text) c (remove_awaiting user s)).
  split.
  - rewrite handle_message_unfold, E. cbv zeta. fold s'.
    by rewrite fetch_and_send_times_store.
  - rewrite times_command_unfold.
    assert (L : user_locations s' !! user = Some (mk_location (strip message_text) c))
      by apply lookup_insert_eq.
    rewrite L. cbv zeta. cbn [city country].
    by rewrite fetch_and_send_times_store.
Qed.

Lemma times_repeats_fetch_witness :
  let s' := store_after (handle_message offline 7 "Cairo" egypt_pending) in
  let F := fetch_and_send_times offline (strip "Cairo") "Egypt" s' in
  handle_message offline 7 "Cairo" egypt_pending =
    (outcome F, s', ReplyText (MsgLocationSaved (strip "Cairo") "Egypt")
                    :: ReplyText (MsgSearching (strip "Cairo") "Egypt") :: sent F)
  /\ times_command offline 7 s' =
    (outcome F, s', ReplyText (MsgSearchingSaved (strip "Cairo") "Egypt") :: sent F).
Proof.
  apply (times_repeats_fetch offline 7 "Cairo" "Egypt" egypt_pending).
  vm_compute. reflexivity.
Defined.

Lemma fetch_and_send_times_raises (w : world) (c k : string) (s : store) (e : exn) :
  outcome (fetch_and_send_times w c k s) = Raise e ->
  e = AttributeError \/ e = TypeError \/ e = OverflowError.
Proof.
  rewrite fetch_and_send_times_unfold.
  destruct (get_prayer_times w c k) as [timings | e1] eqn:G; simpl.
  2:{ intros [= <-]. left. eapply get_prayer_times_raises, G. }
  destruct (truthy timings); simpl; [| discriminate].
  destruct (calculate_times (date_at_calc w) timings) as [results | e2] eqn:C; simpl.
  - destruct (bool_decide (results = ∅)); discriminate.
  - intros [= <-]. right.
    destruct (calculate_times_raises _ _ _ C) as [-> | [-> _]]; [by left | by right].
Qed.

(** X17. A handler can raise only on the "times" command and on a text,
    only [AttributeError], [TypeError] or [OverflowError], and only after
    the progress message was already sent; "start", "help" and the button
    handler never raise. *)
Theorem handler_exceptions (COUNTRIES : list string) (w : world) (user : Z) (ev : event)
    (s : store) (e : exn) :
  outcome (handle_event COUNTRIES w user ev s) = Raise e ->
  (e = AttributeError \/ e = TypeError \/ e = OverflowError)
  /\ (ev = Command CmdTimes \/ exists message_text, ev = Text message_text)
  /\ replied (handle_event COUNTRIES w user ev s) = true.
Proof.
  destruct ev as [[| |] | data | message_text]; simpl.
  - discriminate.
  - discriminate.
  - intros H. split; [| split; [by left | apply times_command_replied]].
    rewrite times_command_unfold in H.
    destruct (user_locations s !! user) as [loc |]; [| discriminate].
    eapply fetch_and_send_times_raises, H.
  - destruct (button_callback_cases user data s) as [(c & -> & E) | (_ & E)];
      rewrite E; discriminate.
  - intros H. split; [| split; [right; eauto | apply handle_message_replied]].
    rewrite handle_message_unfold in H.
    destruct (users_awaiting_city s !! user) as [c |]; [| discriminate].
    eapply fetch_and_send_times_raises, H.
Qed.

Lemma handler_exceptions_witness :
  (AttributeError = AttributeError \/ AttributeError = TypeError
   \/ AttributeError = OverflowError)
  /\ (Text "Cairo" = Command CmdTimes \/ exists message_text, Text "Cairo" = Text message_text)
  /\ replied (handle_event [] (answering data_is_text) 7 (Text "Cairo") egypt_pending) = true.
Proof.
  apply (handler_exceptions [] (answering data_is_text) 7 (Text "Cairo") egypt_pending
           AttributeError).
  vm_compute. reflexivity.
Defined.

(** ** From the service to the message *)

Lemma get_prayer_times_truthy (w : world) (c k : string) (v : pyval) :
  get_prayer_times w c k = Return v -> v = PyNone \/ truthy v = true.
Proof.
  unfold get_prayer_times.
  destruct (request_timings_cases (http_get w (mk_request (date_at_fetch w) c k 5)))
    as [-> | [-> | [-> | (status & data & v' & _ & _ & _ & Hv & ->)]]];
    intros [= <-]; auto.
Qed.

(** X18. When the service delivers a mapping whose three values parse, the
    one message of [fetch_and_send_times] is the schedule, and the schedule
    shown is the dict of [calculate_times] for these times: nothing of the
    other entries of the mapping, the city or the date enters it. *)
Theorem schedule_message (w : world) (c k : string) (s : store) (timings : pyval)
    (tm ti tf : pytime) :
  valid_today (date_at_calc w) ->
  get_prayer_times w c k = Return timings ->
  has_time timings "Maghrib" tm -> has_time timings "Isha" ti ->
  has_time timings "Fajr" tf ->
  fetch_and_send_times w c k s =
  (Return tt, s, [ReplyText (MsgSchedule c k (format_schedule (schedule_of 1 tm ti tf)))]).
Proof.
  intros Ht G Hm Hi Hf. rewrite fetch_and_send_times_unfold, G.
  destruct (get_prayer_times_truthy _ _ _ _ G) as [-> | T].
  { destruct Hm as (v & Hv & _). discriminate. }
  rewrite T, (calculate_times_ok _ _ _ _ _ Ht Hm Hi Hf).
  rewrite bool_decide_eq_false_2 by apply format_schedule_nonempty. reflexivity.
Qed.

Lemma schedule_message_witness :
  fetch_and_send_times (answering multiple_choices) "Cairo" "Egypt" egypt_pending =
  (Return tt, egypt_pending,
   [ReplyText (MsgSchedule "Cairo" "Egypt"
      (format_schedule (schedule_of 1 (mk_time 18 0 0 0) (mk_time 19 30 0 0)
                                    (mk_time 4 30 0 0))))]).
Proof.
  apply (schedule_message (answering multiple_choices) "Cairo" "Egypt" egypt_pending
           scenario_timings).
  - unfold valid_today, MAXORDINAL; simpl; lia.
  - vm_compute. reflexivity.
  - eexists; split; [vm_compute; reflexivity | vm_compute; reflexivity].
  - eexists; split; [vm_compute; reflexivity | vm_compute; reflexivity].
  - eexists; split; [vm_compute; reflexivity | vm_compute; reflexivity].
Defined.

(** X19. When the service delivers a mapping that lacks Maghrib, Isha or
    Fajr, or in which one of these three strings is not a valid HH:MM
    value, as with a zone written after the time, the one message of
    [fetch_and_send_times] is the processing-error text. *)
Theorem processing_error_message (w : world) (c k : string) (s : store)
    (d : gmap string pyval) :
  valid_today (date_at_calc w) ->
  get_prayer_times w c k = Return (PyDict d) ->
  (d !! "Maghrib" = None \/ d !! "Isha" = None \/ d !! "Fajr" = None)
  \/ (exists sm si sf : string,
        d !! "Maghrib" = Some (PyStr sm) /\ d !! "Isha" = Some (PyStr si)
        /\ d !! "Fajr" = Some (PyStr sf)
        /\ (~ parses sm \/ ~ parses si \/ ~ parses sf)) ->
  fetch_and_send_times w c k s = (Return tt, s, [ReplyText MsgProcessingError]).
Proof.
  intros Ht G H. rewrite fetch_and_send_times_unfold, G.
  destruct (get_prayer_times_truthy _ _ _ _ G) as [? | T]; [discriminate |].
  rewrite T.
  assert (E : calculate_times (date_at_calc w) (PyDict d) = Return ∅).
  { destruct H as [Hmiss | (sm & si & sf & Em & Ei & Ef & Hbad)].
    - eapply calculate_times_caught; [exact Ht | | by left].
      by apply parse_timings_missing.
    - eapply calculate_times_caught; [exact Ht | | by right].
      by eapply parse_timings_unparsable. }
  rewrite E. reflexivity.
Qed.

Lemma processing_error_message_witness :
  fetch_and_send_times (answering (timings_reply zoned_timings)) "Cairo" "Egypt" egypt_pending
  = (Return tt, egypt_pending, [ReplyText MsgProcessingError]).
Proof.
  apply (processing_error_message (answering (timings_reply zoned_timings)) "Cairo" "Egypt"
           egypt_pending zoned_timings).
  - unfold valid_today, MAXORDINAL; simpl; lia.
  - vm_compute. reflexivity.
  - right. exists "18:00 (EET)", "19:30 (EET)", "04:30 (EET)".
    repeat split; try (vm_compute; reflexivity).
    left. intros [t Ht]. vm_compute in Ht. discriminate.
Defined.
